(** * paper2remarkable, provider for HTML documents

    A shallow embedding of [paper2remarkable/providers/html.py] and the
    properties of its four entry points: [my_fetcher], [get_filename],
    [retrieve_pdf] and [validate].

    Python strings are sequences of code points; the services of other
    packages (urllib, readability, html2text, markdown, weasyprint,
    titlecase, unidecode) and of the sibling modules [utils] and [log] are
    fields of the record [Services]. *)

From Stdlib Require Import String Ascii NArith Lia.
From stdpp Require Import base option list gmap.

(** ** Python strings *)

Definition char := N.
Definition str := list char.

(** A literal of the source, character by character. *)
Definition lit (s : string) : str :=
  map N_of_ascii (list_ascii_of_string s).
Arguments lit : simpl never.

Definition DQUOTE : char := 34%N.
Definition NEWLINE : char := 10%N.
Definition SPACE : char := 32%N.
Definition UNDERSCORE : char := 95%N.
Definition SLASH : char := 47%N.
Definition LBRACE : char := 123%N.
Definition RBRACE : char := 125%N.
Definition DOT : char := 46%N.

Fixpoint str_eqb (a b : str) : bool :=
  match a, b with
  | [], [] => true
  | x :: a', y :: b' => (x =? y)%N && str_eqb a' b'
  | _, _ => false
  end.

(** Truth value of a string: only the empty string is false. *)
Definition truthy (s : str) : bool :=
  match s with [] => false | _ :: _ => true end.

(** [all(iterable)] on a list of strings. *)
Definition all (l : list str) : bool := forallb truthy l.

(** [s.startswith(prefix)] *)
Fixpoint startswith (s prefix : str) {struct prefix} : bool :=
  match prefix with
  | [] => true
  | p :: prefix' =>
      match s with
      | [] => false
      | c :: s' => (c =? p)%N && startswith s' prefix'
      end
  end.

(** [s.replace(old, new)]: the occurrences of [old] are found from the left
    and do not overlap; what is put in is not scanned again. An empty [old]
    matches before every character and at the end. *)
Fixpoint replace_from (fuel : nat) (old new s : str) : str :=
  match fuel with
  | O => s
  | S fuel' =>
      if startswith s old
      then new ++ replace_from fuel' old new (drop (length old) s)
      else match s with
           | [] => []
           | c :: s' => c :: replace_from fuel' old new s'
           end
  end.

Definition replace (s old new : str) : str :=
  match old with
  | [] => new ++ flat_map (λ c, c :: new) s
  | _ :: _ => replace_from (length s) old new s
  end.

(** [s.lstrip(chars)], [s.rstrip(chars)] and [s.strip(chars)] *)
Definition in_chars (chars : str) (c : char) : bool :=
  existsb (N.eqb c) chars.

Fixpoint lstrip (s chars : str) : str :=
  match s with
  | [] => []
  | c :: s' => if in_chars chars c then lstrip s' chars else s
  end.

Definition rstrip (s chars : str) : str :=
  reverse (lstrip (reverse s) chars).

Definition strip (s chars : str) : str :=
  rstrip (lstrip s chars) chars.

(** ** urllib.parse results *)

(** The named tuple of [urllib.parse.urlparse]. *)
Record ParseResult := {
  scheme : str;
  netloc : str;
  path : str;
  params : str;
  query : str;
  fragment : str;
}.

(** The named tuple of [urllib.parse.urlsplit]: the same without [params]. *)
Record SplitResult := {
  split_scheme : str;
  split_netloc : str;
  split_path : str;
  split_query : str;
  split_fragment : str;
}.

(** ** str.format *)

(** The values the templates of this module are applied to. *)
Inductive pyval :=
  | PyStr (s : str)
  | PySplit (r : SplitResult).

Definition getattr (v : pyval) (name : str) : option pyval :=
  match v with
  | PyStr _ => None
  | PySplit r =>
      if str_eqb name (lit "scheme") then Some (PyStr (split_scheme r))
      else if str_eqb name (lit "netloc") then Some (PyStr (split_netloc r))
      else if str_eqb name (lit "path") then Some (PyStr (split_path r))
      else if str_eqb name (lit "query") then Some (PyStr (split_query r))
      else if str_eqb name (lit "fragment") then Some (PyStr (split_fragment r))
      else None
  end.

Definition digit_value (c : char) : option nat :=
  if ((48 <=? c) && (c <=? 57))%N then Some (N.to_nat (c - 48)) else None.

(** A field name made of digits is a position among the arguments. *)
Fixpoint parse_index (acc : nat) (s : str) : option nat :=
  match s with
  | [] => Some acc
  | c :: s' =>
      match digit_value c with
      | Some d => parse_index (10 * acc + d) s'
      | None => None
      end
  end.

Fixpoint kw_lookup (kwargs : list (str * pyval)) (name : str) : option pyval :=
  match kwargs with
  | [] => None
  | (k, v) :: kwargs' => if str_eqb k name then Some v else kw_lookup kwargs' name
  end.

(** Cut a field name at its first dot. *)
Fixpoint split_dot (s : str) : str * option str :=
  match s with
  | [] => ([], None)
  | c :: s' =>
      if (c =? DOT)%N then ([], Some s')
      else let '(a, b) := split_dot s' in (c :: a, b)
  end.

(** The text a replacement field stands for: the argument it names (by
    position or by keyword), or one attribute of it; a string is put in as
    it is. [None] is a [KeyError], [IndexError] or [AttributeError], or a
    value that is not a string. *)
Definition field_text (args : list pyval) (kwargs : list (str * pyval))
    (field : str) : option str :=
  let '(arg_name, attr) := split_dot field in
  match arg_name with
  | [] => None
  | _ :: _ =>
      let arg := match parse_index 0 arg_name with
                 | Some i => args !! i
                 | None => kw_lookup kwargs arg_name
                 end in
      match arg, attr with
      | Some (PyStr s), None => Some s
      | Some v, Some a =>
          match getattr v a with
          | Some (PyStr s) => Some s
          | _ => None
          end
      | _, _ => None
      end
  end.

Inductive fmt_state :=
  | FText                    (* in literal text *)
  | FOpen                    (* after an opening brace *)
  | FField (name_rev : str)  (* inside a replacement field *)
  | FClose.                  (* after a closing brace in literal text *)

(** [str.format] with positional and keyword arguments, for templates whose fields have
    neither a conversion nor a format specification. [None] is the
    exception Python raises. *)
Fixpoint format_from (st : fmt_state) (template : str)
    (args : list pyval) (kwargs : list (str * pyval)) : option str :=
  match template with
  | [] => match st with FText => Some [] | _ => None end
  | c :: template' =>
      match st with
      | FText =>
          if (c =? LBRACE)%N then format_from FOpen template' args kwargs
          else if (c =? RBRACE)%N then format_from FClose template' args kwargs
          else cons c <$> format_from FText template' args kwargs
      | FOpen =>
          if (c =? LBRACE)%N
          then cons LBRACE <$> format_from FText template' args kwargs
          else if (c =? RBRACE)%N then None
          else format_from (FField [c]) template' args kwargs
      | FField name_rev =>
          if (c =? RBRACE)%N
          then match field_text args kwargs (reverse name_rev) with
               | Some v => app v <$> format_from FText template' args kwargs
               | None => None
               end
          else if (c =? LBRACE)%N then None
          else format_from (FField (c :: name_rev)) template' args kwargs
      | FClose =>
          if (c =? RBRACE)%N
          then cons RBRACE <$> format_from FText template' args kwargs
          else None
      end
  end.

Definition format (template : str) (args : list pyval)
    (kwargs : list (str * pyval)) : option str :=
  format_from FText template args kwargs.

(** ** The resource fetcher *)

(** The address [my_fetcher] hands to weasyprint's default fetcher. *)
Definition my_fetcher_url (url : str) : str :=
  if startswith url (lit "//") then lit "https:" ++ url
  else if startswith url (lit "file:///")
       then lit "https:" ++ drop (length (lit "file:/")) url
       else url.

Definition my_fetcher {A} (default_url_fetcher : str → A) (url : str) : A :=
  default_url_fetcher (my_fetcher_url url).

(** ** Relative addresses in the article *)

(** The two replacements under the comment [# fix relative urls]. *)
Definition SRC_PROTOCOL_RELATIVE : str := lit " src=" ++ [DQUOTE] ++ lit "//".
Definition SRC_HTTPS : str := lit " src=" ++ [DQUOTE] ++ lit "https://".
Definition SRC_ROOT_RELATIVE : str := lit " src=" ++ [DQUOTE] ++ lit "/".
Definition SRC_BASE_TEMPLATE : str := lit " src=" ++ [DQUOTE] ++ lit "{base}/".

Definition fix_relative_urls (base_url html_article : str) : option str :=
  let html_article := replace html_article SRC_PROTOCOL_RELATIVE SRC_HTTPS in
  new ← format SRC_BASE_TEMPLATE [] [(lit "base", PyStr base_url)];
  Some (replace html_article SRC_ROOT_RELATIVE new).

(** ** The world the provider runs in *)

(** An exception, by the name of its class. *)
Inductive exn := Exn (name : string).

Inductive result (A : Type) :=
  | Ok (a : A)
  | Raise (e : exn).
Arguments Ok {A} a.
Arguments Raise {A} e.

(** What a file holds: text written through [open(path, "w")], or the
    bytes of a rendered document. *)
Inductive content :=
  | Text (s : str)
  | Pdf (bytes : list N).

(** What becomes of a write to a file, [open(name, mode)] followed by
    the writing proper: all of it is written; or [open] raises and the
    file is as it was ([kept] is [None]); or the file is opened, which
    empties it, and the writing raises with the first [n] characters or
    bytes in the file ([kept] is [Some n]). *)
Inductive write_outcome :=
  | Written
  | WriteFailed (e : exn) (kept : option nat).

(** The first [n] characters or bytes of what was to be written. *)
Definition truncated (n : nat) (c : content) : content :=
  match c with
  | Text s => Text (take n s)
  | Pdf bytes => Pdf (take n bytes)
  end.

(** What the provider asks of the outside, in the order it asks. *)
Inductive event :=
  | GetPage (url : str)
  | GetContentType (url : str)
  | Markdown (text : str)
  | LogInfo (msg : str)
  | WriteFile (name : str) (c : content).

Record world := {
  files : gmap str content;
  trace : list event;
}.

(** The packages and sibling modules [html.py] imports, and the file
    system. What the network and the file system answer may change from
    one request to the next, so the requests of [utils] and the writes see
    the trace so far. *)
Record Services := {
  (* utils.get_page_with_retry(url, return_text=True) *)
  get_page_with_retry : list event → str → result str;
  (* utils.get_content_type_with_retry(url): the content type, or None,
     or an exception *)
  get_content_type_with_retry : list event → str → result (option str);
  (* utils.clean_string *)
  clean_string : str → str;
  urlparse : str → result ParseResult;
  urlsplit : str → result SplitResult;
  (* readability.Document(text).title() *)
  doc_title : str → result str;
  (* readability.Document(text).summary(html_partial=True) *)
  doc_summary : str → result str;
  (* html2text.HTML2Text().handle(html), given the value of wrap_links *)
  h2t_handle : bool → str → result str;
  markdown_markdown : str → result str;
  titlecase : str → str;
  unidecode : str → str;
  weasyprint_default_url_fetcher : str → result content;
  (* weasyprint.HTML(string=html, url_fetcher=f) rendered with one
     stylesheet CSS(string=css): the bytes of the document *)
  weasyprint_render : (str → result content) → str → str → result (list N);
  (* the file a name stands for in the working directory: two names may
     stand for one file *)
  abspath : str → str;
  (* what becomes of writing this content to the file of this name *)
  fs_write : list event → str → content → write_outcome;
}.

(** A computation that reads and changes the world and may raise. What it
    did before raising stays done. *)
Definition M (A : Type) : Type := world → result A * world.

#[export] Instance M_ret : MRet M := λ A a w, (Ok a, w).

#[export] Instance M_bind : MBind M := λ A B f m w,
  match m w with
  | (Ok a, w') => f a w'
  | (Raise e, w') => (Raise e, w')
  end.

Definition lift {A} (r : result A) : M A := λ w, (r, w).

Definition emit (e : event) : M unit := λ w,
  (Ok tt, {| files := files w; trace := trace w ++ [e] |}).


Definition of_option {A} (e : exn) (o : option A) : M A :=
  match o with
  | Some a => mret a
  | None => lift (Raise e)
  end.

Definition CSS : str := lit "
@import url('https://fonts.googleapis.com/css?family=EB+Garamond|Noto+Serif|Inconsolata&display=swap');
@page { size: 702px 936px; margin: 1in; }
a { color: black; }
img { display: block; margin: 0 auto; text-align: center; max-width: 70%; max-height: 300px; }
p, li { font-size: 10pt; font-family: 'EB Garamond'; hyphens: auto; text-align: justify; }
h1,h2,h3 { font-family: 'Noto Serif'; }
h1 { font-size: 26px; }
h2 { font-size: 18px; }
h3 { font-size: 14px; }
blockquote { font-style: italic; }
pre { font-family: 'Inconsolata'; padding-left: 2.5%; background: #efefef; }
code { font-family: 'Inconsolata'; font-size: .7rem; background: #efefef; }
".

Definition ARTICLE_TEMPLATE : str :=
  lit "# {title}" ++ [NEWLINE; NEWLINE] ++ lit "{text}".
Definition BASE_URL_TEMPLATE : str := lit "{0.scheme}://{0.netloc}".
Definition DEBUG_FILE : str := lit "./paper.html".

Section Provider.
Variable S : Services.

Definition page (url : str) : M str := λ w,
  (get_page_with_retry S (trace w) url,
   {| files := files w; trace := trace w ++ [GetPage url] |}).

Definition content_type (url : str) : M (option str) := λ w,
  (get_content_type_with_retry S (trace w) url,
   {| files := files w; trace := trace w ++ [GetContentType url] |}).

Definition markdown (text : str) : M str :=
  _ ← emit (Markdown text);
  lift (markdown_markdown S text).

Definition logger_info (msg : str) : M unit := emit (LogInfo msg).

(** [open(name, mode)] followed by one [write] of [c]. When both go
    through the file holds [c]; when [open] raises the file is as it was;
    when the writing raises the file holds what was written so far. The
    exception is not caught. *)
Definition write_file (name : str) (c : content) : M unit := λ w,
  match fs_write S (trace w) name c with
  | Written =>
      (Ok tt, {| files := <[abspath S name := c]> (files w);
                 trace := trace w ++ [WriteFile name c] |})
  | WriteFailed e None =>
      (Raise e, {| files := files w;
                   trace := trace w ++ [WriteFile name c] |})
  | WriteFailed e (Some n) =>
      (Raise e, {| files := <[abspath S name := truncated n c]> (files w);
                   trace := trace w ++ [WriteFile name c] |})
  end.

(** [HTMLInformer.get_filename] *)
Definition get_filename (abs_url : str) : M str :=
  request_text ← page abs_url;
  title ← lift (doc_title S request_text);
  let title := clean_string S title in
  let title := titlecase S title in
  let title := replace title (lit " ") (lit "_") in
  let title := clean_string S title in
  let name := strip title (lit "_") ++ lit ".pdf" in
  let name := unidecode S name in
  _ ← logger_info (lit "Created filename: " ++ name);
  mret name.

(** [HTML.get_abs_pdf_urls] *)
Definition get_abs_pdf_urls (url : str) : str * str := (url, url).

(** [HTML.retrieve_pdf], [debug] being [self.debug]. The last line of
    the source, [html.write_pdf(filename, ...)], lays the whole document
    out in memory and then opens [filename] and writes it there; either
    part may raise. *)
Definition retrieve_pdf (debug : bool) (pdf_url filename : str) : M unit :=
  request_text ← page pdf_url;
  title ← lift (doc_title S request_text);
  raw_html ← lift (doc_summary S request_text);
  text ← lift (h2t_handle S false raw_html);
  article ← of_option (Exn "KeyError")
    (format ARTICLE_TEMPLATE []
       [(lit "title", PyStr title); (lit "text", PyStr text)]);
  parts ← lift (urlsplit S pdf_url);
  base_url ← of_option (Exn "AttributeError")
    (format BASE_URL_TEMPLATE [PySplit parts] []);
  html_article ← markdown article;
  html_article ← of_option (Exn "KeyError")
    (fix_relative_urls base_url html_article);
  _ ← (if debug then write_file DEBUG_FILE (Text html_article)
       else mret tt);
  pdf ← lift (weasyprint_render S
                (my_fetcher (weasyprint_default_url_fetcher S))
                html_article CSS);
  write_file filename (Pdf pdf).

(** [HTML.validate] *)
Definition validate (src : str) : M bool :=
  parsed ← lift (urlparse S src);
  if negb (all [scheme parsed; netloc parsed; path parsed])
  then mret false
  else
    ct ← content_type src;
    match ct with
    | None => mret false
    | Some ct => mret (startswith ct (lit "text/html"))
    end.
End Provider.

(** ** Notions the properties are stated with *)

(** What the template [SRC_BASE_TEMPLATE] gives for [base_url]. *)
Definition SRC_BASE (base_url : str) : str :=
  lit " src=" ++ [DQUOTE] ++ base_url ++ lit "/".

(** The article after both replacements. *)
Definition rewritten (base_url html_article : str) : str :=
  replace (replace html_article SRC_PROTOCOL_RELATIVE SRC_HTTPS)
    SRC_ROOT_RELATIVE (SRC_BASE base_url).

Definition is_ascii (c : char) : bool := (c <? 128)%N.

(** [c.isspace()] *)
Definition isspace (c : char) : bool :=
  ((9 <=? c) && (c <=? 13) || (28 <=? c) && (c <=? 32) || (c =? 133)
   || (c =? 160) || (c =? 5760) || (8192 <=? c) && (c <=? 8202)
   || (c =? 8232) || (c =? 8233) || (c =? 8239) || (c =? 8287)
   || (c =? 12288))%N.


(** [p in s]: [p] stands somewhere in [s]. *)
Fixpoint contains (s p : str) : bool :=
  startswith s p
  || match s with
     | [] => false
     | _ :: s' => contains s' p
     end.

(** The normalization of a title, step by step in the words of the
    specification: clean, title-case, replace spaces with underscores,
    clean again, strip leading and trailing underscores, append [.pdf],
    transliterate to ASCII. *)
Definition filename_steps (S : Services) : list (str → str) :=
  [ clean_string S;
    titlecase S;
    (λ t, replace t (lit " ") (lit "_"));
    clean_string S;
    (λ t, strip t (lit "_"));
    (λ t, t ++ lit ".pdf");
    unidecode S ].

Definition run_steps (steps : list (str → str)) (t : str) : str :=
  fold_left (λ acc f, f acc) steps t.

(** What [get_filename] relies on from [utils.clean_string], [titlecase]
    and [unidecode], none of which is part of this module. *)
Record NamingContract (S : Services) : Prop := {
  (* transliteration leaves ASCII text as it is *)
  unidecode_ascii : ∀ s, Forall is_ascii s → unidecode S s = s;
  (* cleaning gives ASCII text *)
  clean_string_ascii : ∀ s, Forall is_ascii (clean_string S s);
  (* cleaning ASCII text without a space gives text without whitespace *)
  clean_string_whitespace : ∀ s,
    Forall is_ascii s → SPACE ∉ s →
    Forall (λ c, isspace c = false) (clean_string S s);
  (* title-casing keeps ASCII text ASCII *)
  titlecase_ascii : ∀ s, Forall is_ascii s → Forall is_ascii (titlecase S s);
}.


(** What the collaborators do with an empty title. *)
Record EmptyTitleContract (S : Services) : Prop := {
  clean_string_empty : clean_string S [] = [];
  titlecase_empty : titlecase S [] = [];
  unidecode_pdf : unidecode S (lit ".pdf") = lit ".pdf";
}.

(** The world after a request for a page, a request for a content type,
    a call of the text-to-HTML renderer and a write. *)
Definition logged (w : world) (e : event) : world :=
  {| files := files w; trace := trace w ++ [e] |}.

Definition written (S : Services) (w : world) (name : str) (c : content)
    : world :=
  {| files := <[abspath S name := c]> (files w);
     trace := trace w ++ [WriteFile name c] |}.

(** The world after a write that failed: the file at [name] is as it was
    when it could not be opened, and else holds what was written so far. *)
Definition attempted (S : Services) (w : world) (name : str) (c : content)
    (kept : option nat) : world :=
  {| files := match kept with
              | None => files w
              | Some n => <[abspath S name := truncated n c]> (files w)
              end;
     trace := trace w ++ [WriteFile name c] |}.

(** The stages of [retrieve_pdf] before the first write succeed in the
    world [w]: they give the article handed to the text-to-HTML renderer
    and the HTML with its addresses rewritten. *)
Inductive prepares (S : Services) (pdf_url : str) (w : world)
    (article html_article : str) : Prop :=
  | prepares_intro request_text title raw_html text parts html :
      get_page_with_retry S (trace w) pdf_url = Ok request_text →
      doc_title S request_text = Ok title →
      doc_summary S request_text = Ok raw_html →
      h2t_handle S false raw_html = Ok text →
      urlsplit S pdf_url = Ok parts →
      article = lit "# " ++ title ++ [NEWLINE; NEWLINE] ++ text →
      markdown_markdown S article = Ok html →
      html_article
      = rewritten (split_scheme parts ++ lit "://" ++ split_netloc parts)
          html →
      prepares S pdf_url w article html_article.

(** What a run has asked of the outside when it comes to the debug write,
    and when it comes to the write of the document. *)
Definition asked_before_debug (pdf_url article : str) : list event :=
  [GetPage pdf_url; Markdown article].

Definition asked_before_pdf (debug : bool) (pdf_url article html_article : str)
    : list event :=
  [GetPage pdf_url; Markdown article]
  ++ (if debug then [WriteFile DEBUG_FILE (Text html_article)] else []).

(** The places where a run of [retrieve_pdf] can fail, in the order of the
    source: the fetch, the extraction of the title and of the summary, the
    conversion to text, the splitting of the address, the conversion back
    to HTML, the debug write, the rendering in memory and the write of the
    rendered document. A failed write says whether the file was opened and
    how much of the content it holds. *)
Inductive stage :=
  | Fetch
  | Title
  | Summary
  | ToText
  | SplitUrl
  | ToHtml
  | DebugWrite (kept : option nat)
  | Render
  | WritePdf (kept : option nat).

(** The stages that come before the first write. *)
Definition before_writing (st : stage) : bool :=
  match st with
  | Fetch | Title | Summary | ToText | SplitUrl | ToHtml => true
  | DebugWrite _ | Render | WritePdf _ => false
  end.

(** The stage [st] of [retrieve_pdf] fails with [e] in the world [w], the
    stages before it having succeeded. *)
Inductive stage_fails (S : Services) (debug : bool) (pdf_url filename : str)
    (w : world) : stage → exn → Prop :=
  | fetch_fails e :
      get_page_with_retry S (trace w) pdf_url = Raise e →
      stage_fails S debug pdf_url filename w Fetch e
  | title_fails e request_text :
      get_page_with_retry S (trace w) pdf_url = Ok request_text →
      doc_title S request_text = Raise e →
      stage_fails S debug pdf_url filename w Title e
  | summary_fails e request_text title :
      get_page_with_retry S (trace w) pdf_url = Ok request_text →
      doc_title S request_text = Ok title →
      doc_summary S request_text = Raise e →
      stage_fails S debug pdf_url filename w Summary e
  | to_text_fails e request_text title raw_html :
      get_page_with_retry S (trace w) pdf_url = Ok request_text →
      doc_title S request_text = Ok title →
      doc_summary S request_text = Ok raw_html →
      h2t_handle S false raw_html = Raise e →
      stage_fails S debug pdf_url filename w ToText e
  | urlsplit_fails e request_text title raw_html text :
      get_page_with_retry S (trace w) pdf_url = Ok request_text →
      doc_title S request_text = Ok title →
      doc_summary S request_text = Ok raw_html →
      h2t_handle S false raw_html = Ok text →
      urlsplit S pdf_url = Raise e →
      stage_fails S debug pdf_url filename w SplitUrl e
  | to_html_fails e request_text title raw_html text parts :
      get_page_with_retry S (trace w) pdf_url = Ok request_text →
      doc_title S request_text = Ok title →
      doc_summary S request_text = Ok raw_html →
      h2t_handle S false raw_html = Ok text →
      urlsplit S pdf_url = Ok parts →
      markdown_markdown S
        (lit "# " ++ title ++ [NEWLINE; NEWLINE] ++ text) = Raise e →
      stage_fails S debug pdf_url filename w ToHtml e
  | debug_write_fails e article html_article kept :
      debug = true →
      prepares S pdf_url w article html_article →
      fs_write S (trace w ++ asked_before_debug pdf_url article)
        DEBUG_FILE (Text html_article) = WriteFailed e kept →
      stage_fails S debug pdf_url filename w (DebugWrite kept) e
  | rendering_fails e article html_article :
      prepares S pdf_url w article html_article →
      (debug = true →
       fs_write S (trace w ++ asked_before_debug pdf_url article)
         DEBUG_FILE (Text html_article) = Written) →
      weasyprint_render S (my_fetcher (weasyprint_default_url_fetcher S))
        html_article CSS = Raise e →
      stage_fails S debug pdf_url filename w Render e
  | pdf_write_fails e article html_article pdf kept :
      prepares S pdf_url w article html_article →
      (debug = true →
       fs_write S (trace w ++ asked_before_debug pdf_url article)
         DEBUG_FILE (Text html_article) = Written) →
      weasyprint_render S (my_fetcher (weasyprint_default_url_fetcher S))
        html_article CSS = Ok pdf →
      fs_write S
        (trace w ++ asked_before_pdf debug pdf_url article html_article)
        filename (Pdf pdf) = WriteFailed e kept →
      stage_fails S debug pdf_url filename w (WritePdf kept) e.

(** The failure contract read without a proviso: whichever stage fails,
    a file that was absent at the output path is still absent. *)
Definition failure_leaves_no_file : Prop :=
  ∀ (S : Services) (debug : bool) (pdf_url filename : str) (w : world)
    (st : stage) (e : exn),
    stage_fails S debug pdf_url filename w st e →
    files w !! abspath S filename = None →
    (retrieve_pdf S debug pdf_url filename w).1 = Raise e
    ∧ files (retrieve_pdf S debug pdf_url filename w).2
        !! abspath S filename = None.

(** ** A small instance of the services *)

(** Stand-ins to run the provider on: they keep the shape of the real
    services and are simple enough to compute with. *)
Definition sample_unidecode (s : str) : str := List.filter is_ascii s.

Definition sample_allowed (c : char) : bool :=
  ((65 <=? c) && (c <=? 90) || (97 <=? c) && (c <=? 122)
   || (48 <=? c) && (c <=? 57)
   || (c =? 95) || (c =? 32) || (c =? 46) || (c =? 45))%N.

Definition sample_clean_string (s : str) : str :=
  map (λ c, if sample_allowed c then c else UNDERSCORE) (sample_unidecode s).

Fixpoint sample_capitalize (start : bool) (s : str) : str :=
  match s with
  | [] => []
  | c :: s' =>
      (if start && (97 <=? c)%N && (c <=? 122)%N then (c - 32)%N else c)
      :: sample_capitalize (c =? SPACE)%N s'
  end.

Fixpoint cut_at_slash (s : str) : str * str :=
  match s with
  | [] => ([], [])
  | c :: s' =>
      if (c =? SLASH)%N then ([], s)
      else let '(a, b) := cut_at_slash s' in (c :: a, b)
  end.

Definition sample_urlparse (src : str) : result ParseResult :=
  if startswith src (lit "https://")
  then let '(host, rest) := cut_at_slash (drop 8 src) in
       Ok {| scheme := lit "https"; netloc := host; path := rest;
             params := []; query := []; fragment := [] |}
  else Ok {| scheme := []; netloc := []; path := src;
             params := []; query := []; fragment := [] |}.

Definition sample_urlsplit (src : str) : result SplitResult :=
  match sample_urlparse src with
  | Ok r => Ok {| split_scheme := scheme r; split_netloc := netloc r;
                  split_path := path r; split_query := query r;
                  split_fragment := fragment r |}
  | Raise e => Raise e
  end.

(** Every page has the title [title] and the body [body]; every document
    renders as [rendering]. *)
Definition sample (title body : str) (rendering : result (list N))
    : Services :=
  {| get_page_with_retry := λ _ url, Ok (title ++ [NEWLINE] ++ body);
     get_content_type_with_retry := λ _ url,
       Ok (Some (lit "text/html; charset=utf-8"));
     clean_string := sample_clean_string;
     urlparse := sample_urlparse;
     urlsplit := sample_urlsplit;
     doc_title := λ _, Ok title;
     doc_summary := λ _, Ok body;
     h2t_handle := λ _ html, Ok html;
     markdown_markdown := λ text, Ok text;
     titlecase := sample_capitalize true;
     unidecode := sample_unidecode;
     weasyprint_default_url_fetcher := λ url, Ok (Text url);
     weasyprint_render := λ _ _ _, rendering;
     abspath := λ name,
       if startswith name (lit "./") then drop 2 name else name;
     fs_write := λ _ _ _, Written |}.

(** The services [S] with a file system where every write becomes
    [outcome]. *)
Definition with_fs_write (S : Services) (outcome : write_outcome)
    : Services :=
  {| get_page_with_retry := get_page_with_retry S;
     get_content_type_with_retry := get_content_type_with_retry S;
     clean_string := clean_string S;
     urlparse := urlparse S;
     urlsplit := urlsplit S;
     doc_title := doc_title S;
     doc_summary := doc_summary S;
     h2t_handle := h2t_handle S;
     markdown_markdown := markdown_markdown S;
     titlecase := titlecase S;
     unidecode := unidecode S;
     weasyprint_default_url_fetcher := weasyprint_default_url_fetcher S;
     weasyprint_render := weasyprint_render S;
     abspath := abspath S;
     fs_write := λ _ _ _, outcome |}.

(** The services [S] with a network where every request for the content
    type becomes [lookup]. *)
Definition with_content_type (S : Services) (lookup : result (option str))
    : Services :=
  {| get_page_with_retry := get_page_with_retry S;
     get_content_type_with_retry := λ _ _, lookup;
     clean_string := clean_string S;
     urlparse := urlparse S;
     urlsplit := urlsplit S;
     doc_title := doc_title S;
     doc_summary := doc_summary S;
     h2t_handle := h2t_handle S;
     markdown_markdown := markdown_markdown S;
     titlecase := titlecase S;
     unidecode := unidecode S;
     weasyprint_default_url_fetcher := weasyprint_default_url_fetcher S;
     weasyprint_render := weasyprint_render S;
     abspath := abspath S;
     fs_write := fs_write S |}.

Definition empty_world : world := {| files := ∅; trace := [] |}.


(** * Properties *)

(** ** Strings *)

Lemma startswith_app (p rest : str) : startswith (p ++ rest) p = true.
Proof.
  induction p as [|c p IH]; simpl; [done|].
  by rewrite N.eqb_refl, IH.
Qed.

Lemma startswith_true (s p : str) :
  startswith s p = true → s = p ++ drop (length p) s.
Proof.
  revert s; induction p as [|c p IH]; intros s H; simpl in *; [done|].
  destruct s as [|d s]; [done|].
  apply andb_true_iff in H as [Hc Hp].
  apply N.eqb_eq in Hc as ->. simpl. f_equal. by apply IH.
Qed.

Lemma startswith_iff (s p : str) :
  startswith s p = true ↔ ∃ rest, s = p ++ rest.
Proof.
  split.
  - intros H. eexists. by apply startswith_true.
  - intros [rest ->]. apply startswith_app.
Qed.

Lemma startswith_head_ne (c o : char) (s old : str) :
  c ≠ o → startswith (c :: s) (o :: old) = false.
Proof. intros H. simpl. by apply N.eqb_neq in H as ->. Qed.

Section Replace.
Variables (o : char) (old' new : str).
Let old := o :: old'.

Lemma replace_from_enough (n m : nat) (s : str) :
  length s ≤ n → length s ≤ m →
  replace_from n old new s = replace_from m old new s.
Proof.
  revert m s; induction n as [|n IH]; intros m s Hn Hm.
  - destruct s; [|simpl in Hn; lia]. destruct m; reflexivity.
  - destruct m as [|m].
    + destruct s; [reflexivity|simpl in Hm; lia].
    + simpl. destruct s as [|c s]; [reflexivity|].
      simpl in Hn, Hm.
      destruct (_ && _).
      * f_equal. apply IH; rewrite length_drop; unfold old; simpl; lia.
      * f_equal. apply IH; lia.
Qed.

Lemma replace_nil : replace [] old new = [].
Proof. done. Qed.

(** At an occurrence of [old], [new] is put and the scan goes on after
    the occurrence. *)
Lemma replace_match (rest : str) :
  replace (old ++ rest) old new = new ++ replace rest old new.
Proof.
  unfold replace, old. simpl. rewrite N.eqb_refl, startswith_app. simpl.
  f_equal. rewrite drop_app_length.
  apply replace_from_enough; rewrite ?length_app; simpl; lia.
Qed.

(** Elsewhere the character is kept and the scan goes on after it. *)
Lemma replace_skip (c : char) (s : str) :
  startswith (c :: s) old = false →
  replace (c :: s) old new = c :: replace s old new.
Proof.
  intros H. unfold replace, old in *. cbn [length replace_from].
  by rewrite H.
Qed.

(** A stretch without the first character of [old] is copied. *)
Lemma replace_skip_run (u s : str) :
  Forall (λ c, c ≠ o) u →
  replace (u ++ s) old new = u ++ replace s old new.
Proof.
  induction 1 as [|c u Hc _ IH]; [done|]. rewrite <- !app_comm_cons.
  rewrite replace_skip by by apply startswith_head_ne.
  by rewrite IH.
Qed.

(** When the first character of [old] does not come back inside [old],
    no occurrence of [old] reaches over a place where that character
    stands: the text before and the text from there on are rewritten
    apart. *)
Lemma replace_app_boundary (a b : str) :
  Forall (λ c, c ≠ o) old' →
  head b = Some o ∨ b = [] →
  replace (a ++ b) old new = replace a old new ++ replace b old new.
Proof.
  intros Hold Hb.
  induction a as [a IH] using (induction_ltof1 _ (@length char)).
  unfold ltof in IH. destruct a as [|c a]; [done|].
  destruct (startswith (c :: a) old) eqn:Ha.
  - apply startswith_true in Ha. fold old in Ha.
    set (a' := drop (length old) (c :: a)) in *.
    rewrite Ha, <- (assoc_L (++)), !replace_match, <- (assoc_L (++)).
    f_equal. apply IH.
    rewrite Ha, length_app. simpl. lia.
  - assert (startswith ((c :: a) ++ b) old = false) as Hab.
    { destruct (startswith ((c :: a) ++ b) old) eqn:E; [|done].
      exfalso. simpl in Ha, E.
      destruct (c =? o)%N; [|done]. simpl in Ha, E.
      clear IH c. revert Hold Ha E. generalize old'. clear old.
      induction a as [|d a IHa]; intros p Hp Ha E.
      - destruct p as [|x p]; [done|]. simpl in E.
        destruct b as [|y b]; [done|].
        destruct Hb as [[= ->]|?]; [|done].
        apply andb_true_iff in E as [E _]. apply N.eqb_eq in E.
        by inversion Hp.
      - destruct p as [|x p]; [done|]. simpl in Ha, E.
        destruct (d =? x)%N; [|done]. simpl in Ha, E.
        inversion Hp; subst. by eapply IHa. }
    rewrite <- app_comm_cons in Hab |- *. rewrite !replace_skip by done.
    rewrite <- app_comm_cons. f_equal. apply IH. simpl. lia.
Qed.
End Replace.

(** ** The facade *)

(** C7. [get_abs_pdf_urls] returns a pair whose two components are both
    the address it was given. *)
Theorem get_abs_pdf_urls_identity (url : str) :
  (get_abs_pdf_urls url).1 = url ∧ (get_abs_pdf_urls url).2 = url.
Proof. done. Qed.

(** ** The resource fetcher *)

(** C3. An address that starts with two slashes gets [https:] put in
    front; otherwise [file:///] at its start is exchanged for [https://]
    and what follows is kept; otherwise the address goes to the default
    fetcher as it is. *)
Theorem my_fetcher_rewrites (A : Type) (default_url_fetcher : str → A)
    (url : str) :
  (∀ rest, url = lit "//" ++ rest →
     my_fetcher default_url_fetcher url
     = default_url_fetcher (lit "https:" ++ url))
  ∧ (∀ rest, url = lit "file:///" ++ rest →
     my_fetcher default_url_fetcher url
     = default_url_fetcher (lit "https://" ++ rest))
  ∧ (startswith url (lit "//") = false →
     startswith url (lit "file:///") = false →
     my_fetcher default_url_fetcher url = default_url_fetcher url).
Proof.
  unfold my_fetcher, my_fetcher_url. repeat split.
  - intros rest ->. by rewrite startswith_app.
  - intros rest ->. by rewrite startswith_app.
  - by intros -> ->.
Qed.

Lemma my_fetcher_rewrites_witness :
  my_fetcher id (lit "//cdn.example.com/img.png")
    = lit "https://cdn.example.com/img.png"
  ∧ my_fetcher id (lit "file:///etc/passwd") = lit "https://etc/passwd"
  ∧ my_fetcher id (lit "http://example.com/a") = lit "http://example.com/a".
Proof.
  split; [|split].
  - exact (proj1 (my_fetcher_rewrites str id (lit "//cdn.example.com/img.png"))
             (lit "cdn.example.com/img.png") eq_refl).
  - exact (proj1 (proj2 (my_fetcher_rewrites str id (lit "file:///etc/passwd")))
             (lit "etc/passwd") eq_refl).
  - exact (proj2 (proj2 (my_fetcher_rewrites str id (lit "http://example.com/a")))
             eq_refl eq_refl).
Defined.

(** ** The validator *)

Lemma all_three (a b c : str) :
  all [a; b; c] = true ↔ a ≠ [] ∧ b ≠ [] ∧ c ≠ [].
Proof.
  destruct a, b, c; simpl; split; try done; intros (? & ? & ?); done.
Qed.

(** C1. When the parsed address lacks its scheme, its network location
    or its path, [validate] returns false and the content type is not
    asked for: the world is as before. Otherwise the content type is
    asked for once; without an answer [validate] returns false, and with
    one it returns true exactly when the answer starts with [text/html].
    An exception of the lookup is not caught. *)
Theorem validate_decides (S : Services) (src : str) (w : world)
    (parsed : ParseResult) :
  urlparse S src = Ok parsed →
  (scheme parsed = [] ∨ netloc parsed = [] ∨ path parsed = [] →
     validate S src w = (Ok false, w))
  ∧ (scheme parsed ≠ [] → netloc parsed ≠ [] → path parsed ≠ [] →
     ∃ r, validate S src w = (r, logged w (GetContentType src))
        ∧ match get_content_type_with_retry S (trace w) src with
          | Ok None => r = Ok false
          | Ok (Some ct) =>
              ∃ b, r = Ok b ∧ (b = true ↔ ∃ rest, ct = lit "text/html" ++ rest)
          | Raise e => r = Raise e
          end).
Proof.
  intros Hparsed. unfold validate, mbind, M_bind, lift. rewrite Hparsed.
  split.
  - intros Hmissing.
    destruct (all _) eqn:Hall; [|done].
    apply all_three in Hall as (? & ? & ?).
    by destruct Hmissing as [?|[?|?]].
  - intros H1 H2 H3.
    assert (all [scheme parsed; netloc parsed; path parsed] = true) as ->
      by by apply all_three.
    unfold content_type, logged. simpl.
    destruct (get_content_type_with_retry S (trace w) src) as [[ct|]|e].
    + eexists. split; [done|].
      exists (startswith ct (lit "text/html")).
      split; [done|]. apply startswith_iff.
    + by exists (Ok false).
    + by exists (Raise e).
Qed.

Lemma validate_decides_witness :
  validate (sample [] [] (Ok [])) (lit "example.com/a") empty_world
    = (Ok false, empty_world)
  ∧ ∃ r, validate (sample [] [] (Ok [])) (lit "https://example.com/a")
           empty_world
         = (r, logged empty_world (GetContentType (lit "https://example.com/a")))
       ∧ ∃ b, r = Ok b
            ∧ (b = true
               ↔ ∃ rest, lit "text/html; charset=utf-8" = lit "text/html" ++ rest).
Proof.
  split.
  - refine (proj1 (validate_decides (sample [] [] (Ok [])) (lit "example.com/a")
                     empty_world _ eq_refl) _).
    by left.
  - exact (proj2 (validate_decides (sample [] [] (Ok []))
                    (lit "https://example.com/a") empty_world _ eq_refl)
             ltac:(done) ltac:(done) ltac:(done)).
Defined.

(** ** Relative addresses *)

Section ReplaceBlocks.
Variables (o : char) (old' new : str).
Hypothesis Hold : Forall (λ c, c ≠ o) old'.

(** An occurrence of [old] anywhere in the text is replaced, and the text
    around it is rewritten as it would be alone. *)
Lemma replace_at_occurrence (a b : str) :
  replace (a ++ (o :: old') ++ b) (o :: old') new
  = replace a (o :: old') new ++ new ++ replace b (o :: old') new.
Proof using Hold.
  rewrite replace_app_boundary; [|done|by left].
  by rewrite replace_match.
Qed.

(** A block that begins like [old] but is not an occurrence of it is
    kept. *)
Lemma replace_keeps (a u b : str) :
  Forall (λ c, c ≠ o) u →
  startswith ((o :: u) ++ b) (o :: old') = false →
  replace (a ++ (o :: u) ++ b) (o :: old') new
  = replace a (o :: old') new ++ (o :: u) ++ replace b (o :: old') new.
Proof using Hold.
  intros Hu Hno.
  rewrite replace_app_boundary; [|done|by left].
  rewrite <- app_comm_cons in Hno |- *.
  rewrite replace_skip by done.
  by rewrite replace_skip_run.
Qed.
End ReplaceBlocks.

Ltac no_space := vm_compute; repeat constructor; discriminate.

Lemma format_src_base (base_url : str) :
  format SRC_BASE_TEMPLATE [] [(lit "base", PyStr base_url)]
  = Some (SRC_BASE base_url).
Proof. reflexivity. Qed.

Lemma fix_relative_urls_rewritten (base_url html_article : str) :
  fix_relative_urls base_url html_article
  = Some (rewritten base_url html_article).
Proof. unfold fix_relative_urls. by rewrite format_src_base. Qed.

Lemma rewritten_protocol_relative (base_url a b : str) :
  rewritten base_url (a ++ SRC_PROTOCOL_RELATIVE ++ b)
  = rewritten base_url a ++ SRC_HTTPS ++ rewritten base_url b.
Proof.
  unfold rewritten.
  rewrite (replace_at_occurrence SPACE (lit "src=" ++ [DQUOTE] ++ lit "//"))
    by no_space.
  apply (replace_keeps SPACE (lit "src=" ++ [DQUOTE] ++ lit "/") _
           ltac:(no_space) _ (lit "src=" ++ [DQUOTE] ++ lit "https://"));
    [no_space|reflexivity].
Qed.

Lemma rewritten_root_relative (base_url a b : str) :
  head b ≠ Some SLASH →
  rewritten base_url (a ++ SRC_ROOT_RELATIVE ++ b)
  = rewritten base_url a ++ SRC_BASE base_url ++ rewritten base_url b.
Proof.
  intros Hb. unfold rewritten.
  rewrite (replace_keeps SPACE (lit "src=" ++ [DQUOTE] ++ lit "//") _
             ltac:(no_space) _ (lit "src=" ++ [DQUOTE] ++ lit "/")).
  - apply (replace_at_occurrence SPACE (lit "src=" ++ [DQUOTE] ++ lit "/")).
    no_space.
  - no_space.
  - destruct b as [|c b]; [reflexivity|].
    assert (c ≠ SLASH) as Hc by (intros ->; by apply Hb).
    apply N.eqb_neq in Hc. change (((c =? SLASH)%N && true) = false).
    by rewrite Hc.
Qed.

Lemma rewritten_absolute (base_url a b : str) :
  rewritten base_url (a ++ SRC_HTTPS ++ b)
  = rewritten base_url a ++ SRC_HTTPS ++ rewritten base_url b.
Proof.
  unfold rewritten.
  rewrite (replace_keeps SPACE (lit "src=" ++ [DQUOTE] ++ lit "//") _
             ltac:(no_space) _ (lit "src=" ++ [DQUOTE] ++ lit "https://"));
    [|no_space|reflexivity].
  apply (replace_keeps SPACE (lit "src=" ++ [DQUOTE] ++ lit "/") _
           ltac:(no_space) _ (lit "src=" ++ [DQUOTE] ++ lit "https://"));
    [no_space|reflexivity].
Qed.

(** C2. With [base_url] the scheme and network location of the source
    address, the article is rewritten by the protocol-relative rule first
    and the root-relative rule second. Wherever the protocol-relative
    opening [SRC_PROTOCOL_RELATIVE] stands it becomes [SRC_HTTPS], and is
    not prefixed again by the second rule; wherever the root-relative
    opening [SRC_ROOT_RELATIVE] stands before something other than a slash
    it becomes the opening with [base_url] and a slash; where [SRC_HTTPS]
    stands already it stays. In all three cases the text before and after
    is rewritten as it would be alone. *)
Theorem fix_relative_urls_rules (base_url a b : str) :
  fix_relative_urls base_url a
  = Some (replace (replace a SRC_PROTOCOL_RELATIVE SRC_HTTPS)
            SRC_ROOT_RELATIVE (lit " src=" ++ [DQUOTE] ++ base_url ++ lit "/"))
  ∧ fix_relative_urls base_url (a ++ SRC_PROTOCOL_RELATIVE ++ b)
    = Some (rewritten base_url a ++ SRC_HTTPS ++ rewritten base_url b)
  ∧ (head b ≠ Some SLASH →
     fix_relative_urls base_url (a ++ SRC_ROOT_RELATIVE ++ b)
     = Some (rewritten base_url a
             ++ (lit " src=" ++ [DQUOTE] ++ base_url ++ lit "/")
             ++ rewritten base_url b))
  ∧ fix_relative_urls base_url (a ++ SRC_HTTPS ++ b)
    = Some (rewritten base_url a ++ SRC_HTTPS ++ rewritten base_url b).
Proof.
  rewrite !fix_relative_urls_rewritten. repeat split.
  - by rewrite rewritten_protocol_relative.
  - intros Hb. by rewrite rewritten_root_relative.
  - by rewrite rewritten_absolute.
Qed.

Lemma fix_relative_urls_rules_witness :
  head (lit "local/img.png") ≠ Some SLASH
  ∧ fix_relative_urls (lit "https://site.com")
      (lit "<img" ++ SRC_ROOT_RELATIVE ++ lit "local/img.png")
    = Some (rewritten (lit "https://site.com") (lit "<img")
            ++ (lit " src=" ++ [DQUOTE] ++ lit "https://site.com" ++ lit "/")
            ++ rewritten (lit "https://site.com") (lit "local/img.png")).
Proof.
  split; [discriminate|].
  apply (fix_relative_urls_rules (lit "https://site.com")
           (lit "<img") (lit "local/img.png")).
  discriminate.
Defined.

(** The three cases of the specification, computed. *)
Example fix_relative_urls_example :
  fix_relative_urls (lit "https://site.com")
    (lit "<img src=" ++ [DQUOTE] ++ lit "//cdn.example.com/img.png" ++ [DQUOTE]
     ++ lit "> <img src=" ++ [DQUOTE] ++ lit "/local/img.png" ++ [DQUOTE]
     ++ lit "> <img src=" ++ [DQUOTE] ++ lit "https://a.org/b.png" ++ [DQUOTE]
     ++ lit ">")
  = Some
    (lit "<img src=" ++ [DQUOTE] ++ lit "https://cdn.example.com/img.png" ++ [DQUOTE]
     ++ lit "> <img src=" ++ [DQUOTE] ++ lit "https://site.com/local/img.png" ++ [DQUOTE]
     ++ lit "> <img src=" ++ [DQUOTE] ++ lit "https://a.org/b.png" ++ [DQUOTE]
     ++ lit ">").
Proof. vm_compute. reflexivity. Qed.

(** In the other order the protocol-relative address is prefixed twice. *)
Example other_order_prefixes_twice :
  replace
    (replace (lit "<img src=" ++ [DQUOTE] ++ lit "//cdn.example.com/img.png")
       SRC_ROOT_RELATIVE (SRC_BASE (lit "https://site.com")))
    SRC_PROTOCOL_RELATIVE SRC_HTTPS
  = lit "<img src=" ++ [DQUOTE] ++ lit "https://site.com//cdn.example.com/img.png".
Proof. vm_compute. reflexivity. Qed.

(** ** Runs of the two operations *)

Lemma format_article (title text : str) :
  format ARTICLE_TEMPLATE []
    [(lit "title", PyStr title); (lit "text", PyStr text)]
  = Some (lit "# " ++ title ++ [NEWLINE; NEWLINE] ++ text).
Proof.
  rewrite <- (app_nil_r text) at 2. vm_compute. reflexivity.
Qed.

Lemma format_base_url (parts : SplitResult) :
  format BASE_URL_TEMPLATE [PySplit parts] []
  = Some (split_scheme parts ++ lit "://" ++ split_netloc parts).
Proof.
  rewrite <- (app_nil_r (split_netloc parts)). vm_compute. reflexivity.
Qed.

(** One step of a computation in [M]. *)
Ltac run :=
  cbv beta iota zeta
    delta [mret M_ret lift of_option mbind M_bind emit page content_type
           markdown logger_info write_file logged written attempted].

(** [retrieve_pdf], stage by stage. *)
Lemma retrieve_pdf_run (S : Services) (debug : bool) (pdf_url filename : str)
    (w : world) :
  retrieve_pdf S debug pdf_url filename w =
  let w1 := logged w (GetPage pdf_url) in
  match get_page_with_retry S (trace w) pdf_url with
  | Raise e => (Raise e, w1)
  | Ok request_text =>
  match doc_title S request_text with
  | Raise e => (Raise e, w1)
  | Ok title =>
  match doc_summary S request_text with
  | Raise e => (Raise e, w1)
  | Ok raw_html =>
  match h2t_handle S false raw_html with
  | Raise e => (Raise e, w1)
  | Ok text =>
  match urlsplit S pdf_url with
  | Raise e => (Raise e, w1)
  | Ok parts =>
  let article := lit "# " ++ title ++ [NEWLINE; NEWLINE] ++ text in
  let w2 := logged w1 (Markdown article) in
  match markdown_markdown S article with
  | Raise e => (Raise e, w2)
  | Ok html =>
  let html_article :=
    rewritten (split_scheme parts ++ lit "://" ++ split_netloc parts) html in
  match (if debug
         then fs_write S (trace w ++ asked_before_debug pdf_url article)
                DEBUG_FILE (Text html_article)
         else Written) with
  | WriteFailed e kept =>
      (Raise e, attempted S w2 DEBUG_FILE (Text html_article) kept)
  | Written =>
  let w3 := if debug then written S w2 DEBUG_FILE (Text html_article)
            else w2 in
  match weasyprint_render S (my_fetcher (weasyprint_default_url_fetcher S))
          html_article CSS with
  | Raise e => (Raise e, w3)
  | Ok pdf =>
  match fs_write S
          (trace w ++ asked_before_pdf debug pdf_url article html_article)
          filename (Pdf pdf) with
  | WriteFailed e kept => (Raise e, attempted S w3 filename (Pdf pdf) kept)
  | Written => (Ok tt, written S w3 filename (Pdf pdf))
  end end end end end end end end end.
Proof.
  unfold retrieve_pdf. run.
  destruct (get_page_with_retry S (trace w) pdf_url) as [request_text|e];
    run; [|done].
  destruct (doc_title S request_text) as [title|e]; run; [|done].
  destruct (doc_summary S request_text) as [raw_html|e]; run; [|done].
  destruct (h2t_handle S false raw_html) as [text|e]; run; [|done].
  rewrite format_article. run.
  destruct (urlsplit S pdf_url) as [parts|e]; run; [|done].
  rewrite format_base_url. run.
  destruct (markdown_markdown S _) as [html|e]; run; [|done].
  rewrite fix_relative_urls_rewritten. run.
  unfold asked_before_pdf, asked_before_debug.
  destruct debug; run; cbn [trace files].
  - rewrite <- !(assoc_L (++)). cbn [app].
    destruct (fs_write S _ DEBUG_FILE _) as [|e [n|]]; run;
      cbn [trace files]; [|reflexivity..].
    destruct (weasyprint_render _ _ _ _) as [pdf|e]; run;
      cbn [trace files]; [|reflexivity].
    rewrite <- !(assoc_L (++)). cbn [app].
    destruct (fs_write S _ filename _) as [|e [n|]]; reflexivity.
  - destruct (weasyprint_render _ _ _ _) as [pdf|e]; run;
      cbn [trace files]; [|reflexivity].
    rewrite <- !(assoc_L (++)). cbn [app].
    destruct (fs_write S _ filename _) as [|e [n|]]; reflexivity.
Qed.

(** [get_filename], stage by stage. *)
Lemma get_filename_run (S : Services) (abs_url : str) (w : world) :
  get_filename S abs_url w =
  let w1 := logged w (GetPage abs_url) in
  match get_page_with_retry S (trace w) abs_url with
  | Raise e => (Raise e, w1)
  | Ok request_text =>
  match doc_title S request_text with
  | Raise e => (Raise e, w1)
  | Ok title =>
  let name := run_steps (filename_steps S) title in
  (Ok name, logged w1 (LogInfo (lit "Created filename: " ++ name)))
  end end.
Proof.
  unfold get_filename. run.
  destruct (get_page_with_retry S (trace w) abs_url) as [request_text|e];
    run; [|done].
  by destruct (doc_title S request_text) as [title|e].
Qed.

(** Closes the goals about what a run added to the trace. *)
Ltac trace_eq :=
  cbn [snd trace logged written attempted]; rewrite <- ?(assoc_L (++));
  reflexivity.

Ltac not_in_trace H :=
  repeat (apply elem_of_cons in H as [H|H]; [discriminate H|]);
  by apply elem_of_nil in H.

(** Case analysis on the stages of a run, first to last. *)
Ltac stage_cases :=
  repeat match goal with
         | |- context [match ?x with Ok _ => _ | Raise _ => _ end] =>
             destruct x eqn:?
         | |- context [if ?d then fs_write _ _ _ _ else Written] =>
             destruct d
         | |- context [match ?x with Written => _ | WriteFailed _ _ => _ end] =>
             destruct x as [|? [?|]] eqn:?
         end.

(** Case analysis on [H : e ∈ [e1; ...; en]]. *)
Ltac members H :=
  cbn [app] in H;
  repeat match type of H with
         | _ ∈ [] => by apply elem_of_nil in H
         | _ ∈ _ :: _ => apply elem_of_cons in H as [H|H]; [try discriminate H|]
         end.

(** Two results of one stage are the same result. *)
Ltac same_stages :=
  repeat match goal with
         | H : ?x = _, H' : ?x = _ |- _ => rewrite H in H'; simplify_eq
         end.

(** ** The article handed to the renderer *)

(** C6. The text [retrieve_pdf] hands to the text-to-HTML renderer is the
    title after a hash and a space, an empty line, and the text the
    HTML-to-text conversion gave: the renderer is called with nothing
    else, and it is called whenever the stages before it succeed. *)
Theorem retrieve_pdf_article (S : Services) (debug : bool)
    (pdf_url filename : str) (w : world) :
  ∃ evs,
    trace (retrieve_pdf S debug pdf_url filename w).2 = trace w ++ evs
    ∧ (∀ a, Markdown a ∈ evs →
       ∃ request_text title raw_html text,
         get_page_with_retry S (trace w) pdf_url = Ok request_text
         ∧ doc_title S request_text = Ok title
         ∧ doc_summary S request_text = Ok raw_html
         ∧ h2t_handle S false raw_html = Ok text
         ∧ a = lit "# " ++ title ++ [NEWLINE; NEWLINE] ++ text)
    ∧ (∀ request_text title raw_html text parts,
         get_page_with_retry S (trace w) pdf_url = Ok request_text →
         doc_title S request_text = Ok title →
         doc_summary S request_text = Ok raw_html →
         h2t_handle S false raw_html = Ok text →
         urlsplit S pdf_url = Ok parts →
         Markdown (lit "# " ++ title ++ [NEWLINE; NEWLINE] ++ text) ∈ evs).
Proof.
  rewrite retrieve_pdf_run. cbv zeta.
  stage_cases; try destruct debug;
    (eexists; split; [trace_eq|]; split;
     [ intros article Harticle; members Harticle; simplify_eq;
       do 4 eexists; split_and!; eauto
     | intros; simplify_eq; same_stages; cbn [app]; rewrite ?elem_of_cons;
       eauto ]).
Qed.

Lemma retrieve_pdf_article_witness :
  ∃ evs,
    trace (retrieve_pdf (sample (lit "Title") (lit "body") (Ok []))
             false (lit "https://site.com/a") (lit "paper.pdf")
             empty_world).2 = [] ++ evs
    ∧ Markdown (lit "# " ++ lit "Title" ++ [NEWLINE; NEWLINE] ++ lit "body")
      ∈ evs.
Proof.
  destruct (retrieve_pdf_article (sample (lit "Title") (lit "body") (Ok []))
              false (lit "https://site.com/a") (lit "paper.pdf") empty_world)
    as (evs & Htrace & _ & Hcalled).
  exists evs. split; [exact Htrace|].
  eapply Hcalled; reflexivity.
Defined.

(** ** Runs that reach the first write *)

(** Once the stages before the first write have succeeded, what is left
    of a run: the debug write, the rendering and the write of the
    document. *)
Lemma retrieve_pdf_prepared (S : Services) (debug : bool)
    (pdf_url filename : str) (w : world) (article html_article : str) :
  prepares S pdf_url w article html_article →
  retrieve_pdf S debug pdf_url filename w =
  let w2 := logged (logged w (GetPage pdf_url)) (Markdown article) in
  match (if debug
         then fs_write S (trace w ++ asked_before_debug pdf_url article)
                DEBUG_FILE (Text html_article)
         else Written) with
  | WriteFailed e kept =>
      (Raise e, attempted S w2 DEBUG_FILE (Text html_article) kept)
  | Written =>
  let w3 := if debug then written S w2 DEBUG_FILE (Text html_article)
            else w2 in
  match weasyprint_render S (my_fetcher (weasyprint_default_url_fetcher S))
          html_article CSS with
  | Raise e => (Raise e, w3)
  | Ok pdf =>
  match fs_write S
          (trace w ++ asked_before_pdf debug pdf_url article html_article)
          filename (Pdf pdf) with
  | WriteFailed e kept => (Raise e, attempted S w3 filename (Pdf pdf) kept)
  | Written => (Ok tt, written S w3 filename (Pdf pdf))
  end end end.
Proof.
  intros [request_text title raw_html text parts html H1 H2 H3 H4 H5 -> H6 ->].
  rewrite retrieve_pdf_run. cbv zeta. by rewrite H1, H2, H3, H4, H5, H6.
Qed.

(** The stages before the first write, from the results at hand. *)
Ltac prepared :=
  eapply prepares_intro; first [eassumption|reflexivity].

(** Two runs of the stages before the first write give one article and
    one HTML. *)
Lemma prepares_once (S : Services) (pdf_url : str) (w : world)
    (article html_article article' html_article' : str) :
  prepares S pdf_url w article html_article →
  prepares S pdf_url w article' html_article' →
  article' = article ∧ html_article' = html_article.
Proof.
  intros [request_text title raw_html text parts html H1 H2 H3 H4 H5 -> H6 ->]
         [? ? ? ? ? ? H1' H2' H3' H4' H5' -> H6' ->].
  rewrite H1 in H1'; simplify_eq. rewrite H2 in H2'; simplify_eq.
  rewrite H3 in H3'; simplify_eq. rewrite H4 in H4'; simplify_eq.
  rewrite H5 in H5'; simplify_eq. rewrite H6 in H6'; by simplify_eq.
Qed.

(** ** The debug file *)

(** C9. With the debug flag set, once the stages up to the rewriting of
    the addresses have succeeded, [retrieve_pdf] writes the rewritten HTML
    to [./paper.html]; when that write goes through, the file holds the
    rewritten HTML after the run, also when the rendering fails after
    that, and unless the document is written over it. With the flag not
    set no text is written: no file changes but the one at the path the
    caller named, which is as before or holds bytes of the rendered
    document, all of them when the run returns. In the trace, text is
    written to no file but [./paper.html], and only when the flag is
    set. *)
Theorem retrieve_pdf_debug_file (S : Services) (debug : bool)
    (pdf_url filename : str) (w : world) :
  (debug = true → ∀ article html_article,
     prepares S pdf_url w article html_article →
     fs_write S (trace w ++ asked_before_debug pdf_url article)
       DEBUG_FILE (Text html_article) = Written →
     abspath S filename ≠ abspath S DEBUG_FILE
     ∨ (∃ e, weasyprint_render S
               (my_fetcher (weasyprint_default_url_fetcher S))
               html_article CSS = Raise e) →
     files (retrieve_pdf S debug pdf_url filename w).2
       !! abspath S DEBUG_FILE = Some (Text html_article))
  ∧ (debug = false →
     (∀ file, file ≠ abspath S filename →
        files (retrieve_pdf S debug pdf_url filename w).2 !! file
        = files w !! file)
     ∧ (files (retrieve_pdf S debug pdf_url filename w).2
          !! abspath S filename = files w !! abspath S filename
        ∨ ∃ article html_article pdf n,
            prepares S pdf_url w article html_article
            ∧ weasyprint_render S
                (my_fetcher (weasyprint_default_url_fetcher S))
                html_article CSS = Ok pdf
            ∧ files (retrieve_pdf S debug pdf_url filename w).2
                !! abspath S filename = Some (Pdf (take n pdf))
            ∧ ((retrieve_pdf S debug pdf_url filename w).1 = Ok tt →
               take n pdf = pdf)))
  ∧ ∃ evs,
      trace (retrieve_pdf S debug pdf_url filename w).2 = trace w ++ evs
      ∧ (∀ name s, WriteFile name (Text s) ∈ evs →
         debug = true ∧ name = DEBUG_FILE)
      ∧ (debug = false → ∀ name c, WriteFile name c ∈ evs →
         name = filename ∧ ∃ pdf, c = Pdf pdf)
      ∧ (∀ article html_article,
           prepares S pdf_url w article html_article →
           debug = true →
           WriteFile DEBUG_FILE (Text html_article) ∈ evs).
Proof.
  split_and!.
  - intros -> article html_article Hprepares Hwritten Hkept.
    rewrite (retrieve_pdf_prepared _ _ _ _ _ _ _ Hprepares). cbv zeta.
    rewrite Hwritten.
    destruct (weasyprint_render _ _ _ _) as [pdf|e] eqn:Hrender;
      [|apply lookup_insert_eq].
    destruct Hkept as [Hpath|[e He]]; [|discriminate He].
    destruct (fs_write S _ filename _) as [|e [n|]];
      cbn [snd files written attempted];
      rewrite ?lookup_insert_ne by done; apply lookup_insert_eq.
  - intros ->. rewrite retrieve_pdf_run. cbv zeta.
    stage_cases; cbn [fst snd files logged written attempted];
      (split; [intros file Hfile; by rewrite ?lookup_insert_ne by done|]);
      try (by left); right;
      match goal with
      | Hpdf : weasyprint_render _ _ _ _ = Ok ?pdf,
        _ : fs_write _ _ _ _ = Written |- _ =>
          do 2 eexists; exists pdf, (length pdf); rewrite firstn_all
      | Hpdf : weasyprint_render _ _ _ _ = Ok ?pdf,
        _ : fs_write _ _ _ _ = WriteFailed _ (Some ?n) |- _ =>
          do 2 eexists; exists pdf, n
      end;
      (split_and!; [prepared|done|apply lookup_insert_eq|done]).
  - rewrite retrieve_pdf_run. cbv zeta.
    stage_cases; try destruct debug;
      (eexists; split; [trace_eq|]; split_and!;
       [ intros name s Hw; members Hw; by simplify_eq
       | intros Hdebug name c Hw; members Hw; simplify_eq; eauto
       | intros article html_article Hprepares Hdebug;
         destruct Hprepares; simplify_eq; same_stages; cbn [app];
         rewrite ?elem_of_cons; eauto 6 ]).
Qed.

Lemma retrieve_pdf_debug_file_witness :
  files (retrieve_pdf (sample (lit "Title") (lit "body") (Ok []))
           true (lit "https://site.com/a") (lit "paper.pdf")
           empty_world).2
    !! abspath (sample (lit "Title") (lit "body") (Ok [])) DEBUG_FILE
  = Some (Text (rewritten (lit "https" ++ lit "://" ++ lit "site.com")
                  (lit "# " ++ lit "Title" ++ [NEWLINE; NEWLINE] ++ lit "body"))).
Proof.
  refine (proj1 (retrieve_pdf_debug_file
                   (sample (lit "Title") (lit "body") (Ok []))
                   true (lit "https://site.com/a") (lit "paper.pdf")
                   empty_world) eq_refl _ _ _ eq_refl _).
  - eapply (prepares_intro _ _ _ _ _ _ _ _ _
              {| split_scheme := lit "https"; split_netloc := lit "site.com";
                 split_path := lit "/a"; split_query := [];
                 split_fragment := [] |});
      reflexivity.
  - left. by vm_compute.
Defined.

(** ** Failure *)

(** A run whose rendering fails with the debug flag set, after the debug
    write. *)
Lemma retrieve_pdf_rendering_fails (S : Services) (pdf_url filename : str)
    (w : world) (article html_article : str) (e : exn) :
  prepares S pdf_url w article html_article →
  fs_write S (trace w ++ asked_before_debug pdf_url article)
    DEBUG_FILE (Text html_article) = Written →
  weasyprint_render S (my_fetcher (weasyprint_default_url_fetcher S))
    html_article CSS = Raise e →
  retrieve_pdf S true pdf_url filename w
  = (Raise e,
     written S (logged (logged w (GetPage pdf_url)) (Markdown article))
       DEBUG_FILE (Text html_article)).
Proof.
  intros Hprepares Hwritten Hrender.
  rewrite (retrieve_pdf_prepared _ _ _ _ _ _ _ Hprepares). cbv zeta.
  by rewrite Hwritten, Hrender.
Qed.

(** C8, as stated, fails: with the debug flag set and [./paper.html] as
    the output path, a failed rendering leaves the debug text at the
    output path. *)
Lemma failure_can_leave_debug_file : ¬ failure_leaves_no_file.
Proof.
  intros Hclaim.
  destruct (Hclaim (sample (lit "Title") (lit "body") (Raise (Exn "RenderError")))
              true (lit "https://site.com/a") DEBUG_FILE empty_world
              Render (Exn "RenderError")) as [_ Hnone].
  - eapply rendering_fails; [|reflexivity..].
    eapply (prepares_intro _ _ _ _ _ _ _ _ _
              {| split_scheme := lit "https"; split_netloc := lit "site.com";
                 split_path := lit "/a"; split_query := [];
                 split_fragment := [] |});
      reflexivity.
  - reflexivity.
  - erewrite retrieve_pdf_rendering_fails in Hnone; [|..|reflexivity].
    + cbn [snd files written] in Hnone.
      by rewrite lookup_insert_eq in Hnone.
    + eapply (prepares_intro _ _ _ _ _ _ _ _ _
                {| split_scheme := lit "https"; split_netloc := lit "site.com";
                   split_path := lit "/a"; split_query := [];
                   split_fragment := [] |});
        reflexivity.
    + reflexivity.
Qed.

(** It fails in a second way: the document is written straight to the
    output path, so a write that stops half-way leaves the first bytes of
    the document there. *)
Example failure_can_leave_partial_document :
  let S := with_fs_write (sample (lit "Title") (lit "body") (Ok [37; 80; 68; 70]%N))
             (WriteFailed (Exn "OSError") (Some 2)) in
  files empty_world !! abspath S (lit "paper.pdf") = None
  ∧ (retrieve_pdf S false (lit "https://site.com/a") (lit "paper.pdf")
       empty_world).1 = Raise (Exn "OSError")
  ∧ files (retrieve_pdf S false (lit "https://site.com/a") (lit "paper.pdf")
             empty_world).2 !! abspath S (lit "paper.pdf")
    = Some (Pdf [37; 80]%N).
Proof. by vm_compute. Qed.

(** C8, amended. When a stage of [retrieve_pdf] fails, the caller gets the
    exception of that stage. A failure before the first write changes no
    file. After any failure the file at the output path is as it was
    before the call, absent if it was absent, with two exceptions. When
    the write of the document stops after the file has been opened, the
    file holds the first bytes of the document. When the debug flag is set
    and the output path is the debug file, the file holds the rewritten
    HTML once the debug write has gone through, and the first characters
    of it when the debug write stops after opening the file. *)
Theorem retrieve_pdf_failure (S : Services) (debug : bool)
    (pdf_url filename : str) (w : world) (st : stage) (e : exn) :
  stage_fails S debug pdf_url filename w st e →
  (retrieve_pdf S debug pdf_url filename w).1 = Raise e
  ∧ (before_writing st = true →
     files (retrieve_pdf S debug pdf_url filename w).2 = files w)
  ∧ ((∀ n, st ≠ WritePdf (Some n)) →
     debug = false ∨ abspath S filename ≠ abspath S DEBUG_FILE
     ∨ st = DebugWrite None →
     files (retrieve_pdf S debug pdf_url filename w).2 !! abspath S filename
     = files w !! abspath S filename)
  ∧ (∀ n, st = WritePdf (Some n) →
     ∃ article html_article pdf,
       prepares S pdf_url w article html_article
       ∧ weasyprint_render S (my_fetcher (weasyprint_default_url_fetcher S))
           html_article CSS = Ok pdf
       ∧ files (retrieve_pdf S debug pdf_url filename w).2
           !! abspath S filename = Some (Pdf (take n pdf)))
  ∧ (debug = true → abspath S filename = abspath S DEBUG_FILE →
     ∀ article html_article,
       prepares S pdf_url w article html_article →
       (st = Render ∨ st = WritePdf None →
        files (retrieve_pdf S debug pdf_url filename w).2
          !! abspath S filename = Some (Text html_article))
       ∧ (∀ n, st = DebugWrite (Some n) →
          files (retrieve_pdf S debug pdf_url filename w).2
            !! abspath S filename = Some (Text (take n html_article)))).
Proof.
  intros Hfails.
  destruct Hfails as
    [ e H1 | e ? H1 H2 | e ? ? H1 H2 H3 | e ? ? ? H1 H2 H3 H4
    | e ? ? ? ? H1 H2 H3 H4 H5 | e ? ? ? ? ? H1 H2 H3 H4 H5 H6
    | e article html_article kept -> Hprepares Hdebug
    | e article html_article Hprepares Hdebug Hrender
    | e article html_article pdf kept Hprepares Hdebug Hrender Hpdf ].
  1-6: rewrite retrieve_pdf_run; cbv zeta;
       rewrite ?H1, ?H2, ?H3, ?H4, ?H5, ?H6;
       (split_and!; [done|done|done|done|]);
       intros ? ? ? ? ?; split; [by intros [?|?]|done].
  - rewrite (retrieve_pdf_prepared _ _ _ _ _ _ _ Hprepares). cbv zeta.
    rewrite Hdebug. cbn [fst snd files attempted].
    split_and!; [done|done| |done|].
    + intros _ [?|[Hpath|?]]; [done| |by simplify_eq].
      destruct kept as [n|]; [|done]. by rewrite lookup_insert_ne.
    + intros _ Hpath article' html_article' Hprepares'.
      destruct (prepares_once _ _ _ _ _ _ _ Hprepares Hprepares') as [-> ->].
      split; [by intros [?|?]|].
      intros n [= ->]. rewrite Hpath. apply lookup_insert_eq.
  - rewrite (retrieve_pdf_prepared _ _ _ _ _ _ _ Hprepares). cbv zeta.
    destruct debug; [rewrite Hdebug by done|]; rewrite Hrender;
      cbn [fst snd files written logged];
      (split_and!; [done|done| |done|]).
    + intros _ [?|[Hpath|?]]; [done| |done]. by rewrite lookup_insert_ne.
    + intros _ Hpath article' html_article' Hprepares'.
      destruct (prepares_once _ _ _ _ _ _ _ Hprepares Hprepares') as [-> ->].
      split; [|done]. intros _. rewrite Hpath. apply lookup_insert_eq.
    + done.
    + done.
  - rewrite (retrieve_pdf_prepared _ _ _ _ _ _ _ Hprepares). cbv zeta.
    destruct debug; [rewrite Hdebug by done|]; rewrite Hrender, Hpdf;
      cbn [fst snd files written logged attempted];
      (split_and!; [done|done| | |]).
    + intros Hkept [?|[Hpath|?]]; [done| |done].
      destruct kept as [n|]; [by destruct (Hkept n)|].
      by rewrite lookup_insert_ne.
    + intros n [= ->]. exists article, html_article, pdf.
      split_and!; [done..|]. apply lookup_insert_eq.
    + intros _ Hpath article' html_article' Hprepares'.
      destruct (prepares_once _ _ _ _ _ _ _ Hprepares Hprepares') as [-> ->].
      split; [|done]. intros [?|[= ->]]; [done|].
      rewrite Hpath. apply lookup_insert_eq.
    + intros Hkept _. by destruct kept as [n|]; [destruct (Hkept n)|].
    + intros n [= ->]. exists article, html_article, pdf.
      split_and!; [done..|]. apply lookup_insert_eq.
    + done.
Qed.

Lemma retrieve_pdf_failure_witness :
  (retrieve_pdf (sample (lit "Title") (lit "body") (Raise (Exn "RenderError")))
     true (lit "https://site.com/a") (lit "paper.pdf") empty_world).1
  = Raise (Exn "RenderError")
  ∧ files (retrieve_pdf
             (sample (lit "Title") (lit "body") (Raise (Exn "RenderError")))
             true (lit "https://site.com/a") (lit "paper.pdf") empty_world).2
      !! abspath (sample (lit "Title") (lit "body") (Raise (Exn "RenderError")))
           (lit "paper.pdf")
    = files empty_world
      !! abspath (sample (lit "Title") (lit "body") (Raise (Exn "RenderError")))
           (lit "paper.pdf").
Proof.
  destruct (retrieve_pdf_failure
              (sample (lit "Title") (lit "body") (Raise (Exn "RenderError")))
              true (lit "https://site.com/a") (lit "paper.pdf") empty_world
              Render (Exn "RenderError")) as (Hraise & _ & Hfile & _).
  - eapply rendering_fails; [|reflexivity..].
    eapply (prepares_intro _ _ _ _ _ _ _ _ _
              {| split_scheme := lit "https"; split_netloc := lit "site.com";
                 split_path := lit "/a"; split_query := [];
                 split_fragment := [] |});
      reflexivity.
  - split; [exact Hraise|]. apply Hfile; [done|].
    right. left. by vm_compute.
Defined.

(** ** One title *)

(** C10. When the two fetches of one address give the same page text,
    the title [get_filename] turns into the file name is the title
    [retrieve_pdf] puts at the head of the article. *)
Theorem same_title (S : Services) (debug : bool) (abs_url filename : str)
    (w1 w2 : world) (request_text name article : str) (evs : list event) :
  get_page_with_retry S (trace w1) abs_url = Ok request_text →
  get_page_with_retry S (trace w2) abs_url = Ok request_text →
  (get_filename S abs_url w1).1 = Ok name →
  trace (retrieve_pdf S debug abs_url filename w2).2 = trace w2 ++ evs →
  Markdown article ∈ evs →
  ∃ title text,
    doc_title S request_text = Ok title
    ∧ name = run_steps (filename_steps S) title
    ∧ article = lit "# " ++ title ++ [NEWLINE; NEWLINE] ++ text.
Proof.
  intros Hpage1 Hpage2. rewrite get_filename_run, retrieve_pdf_run.
  cbv zeta. rewrite Hpage1, Hpage2.
  stage_cases; try destruct debug; intros Hname Htrace Harticle;
    try discriminate Hname;
    cbn [fst snd trace logged written attempted] in Hname, Htrace;
    rewrite <- ?(assoc_L (++)) in Htrace;
    apply app_inv_head in Htrace; subst evs;
    members Harticle; simplify_eq; eauto.
Qed.

Lemma same_title_witness :
  ∃ title text,
    doc_title (sample (lit "Title") (lit "body") (Ok []))
      (lit "Title" ++ [NEWLINE] ++ lit "body") = Ok title
    ∧ run_steps (filename_steps (sample (lit "Title") (lit "body") (Ok [])))
        (lit "Title")
      = run_steps (filename_steps (sample (lit "Title") (lit "body") (Ok [])))
          title
    ∧ lit "# " ++ lit "Title" ++ [NEWLINE; NEWLINE] ++ lit "body"
      = lit "# " ++ title ++ [NEWLINE; NEWLINE] ++ text.
Proof.
  apply (same_title (sample (lit "Title") (lit "body") (Ok [])) false
           (lit "https://site.com/a") (lit "paper.pdf")
           empty_world empty_world
           (lit "Title" ++ [NEWLINE] ++ lit "body")
           (run_steps (filename_steps (sample (lit "Title") (lit "body") (Ok [])))
              (lit "Title"))
           (lit "# " ++ lit "Title" ++ [NEWLINE; NEWLINE] ++ lit "body")
           [GetPage (lit "https://site.com/a");
            Markdown (lit "# " ++ lit "Title" ++ [NEWLINE; NEWLINE] ++ lit "body");
            WriteFile (lit "paper.pdf") (Pdf [])]);
    try reflexivity.
  apply elem_of_cons. right. apply elem_of_cons. by left.
Defined.

(** ** File names *)

Lemma lstrip_Forall (P : char → Prop) (s chars : str) :
  Forall P s → Forall P (lstrip s chars).
Proof.
  induction 1 as [|c s Hc Hs IH]; simpl; [done|].
  destruct (in_chars chars c); [done|by constructor].
Qed.

Lemma lstrip_head (s chars : str) (c : char) :
  head (lstrip s chars) = Some c → in_chars chars c = false.
Proof.
  induction s as [|d s IH]; simpl; [done|].
  destruct (in_chars chars d) eqn:Hd; [done|]. by intros [= <-].
Qed.

Lemma lstrip_suffix (s chars : str) : ∃ pre, s = pre ++ lstrip s chars.
Proof.
  induction s as [|d s [pre IH]]; simpl; [by exists []|].
  destruct (in_chars chars d); [|by exists []].
  exists (d :: pre). simpl. by f_equal.
Qed.

Lemma rstrip_prefix (s chars : str) : ∃ post, s = rstrip s chars ++ post.
Proof.
  unfold rstrip. destruct (lstrip_suffix (reverse s) chars) as [pre Hpre].
  exists (reverse pre).
  rewrite <- reverse_app, <- Hpre. by rewrite reverse_involutive.
Qed.

Lemma rstrip_Forall (P : char → Prop) (s chars : str) :
  Forall P s → Forall P (rstrip s chars).
Proof.
  intros Hs. unfold rstrip. apply Forall_reverse, lstrip_Forall.
  by apply Forall_reverse.
Qed.

Lemma strip_Forall (P : char → Prop) (s chars : str) :
  Forall P s → Forall P (strip s chars).
Proof. intros Hs. by apply rstrip_Forall, lstrip_Forall. Qed.

(** What [strip] leaves does not begin with a stripped character. *)
Lemma strip_head (s chars : str) (c : char) :
  head (strip s chars) = Some c → in_chars chars c = false.
Proof.
  unfold strip. intros Hc.
  destruct (rstrip_prefix (lstrip s chars) chars) as [post Hpost].
  apply (lstrip_head s chars). rewrite Hpost.
  by destruct (rstrip (lstrip s chars) chars).
Qed.

(** What [rstrip] and [strip] leave does not end with a stripped
    character. *)
Lemma rstrip_last (s chars : str) (c : char) :
  last (rstrip s chars) = Some c → in_chars chars c = false.
Proof. unfold rstrip. rewrite last_reverse. apply lstrip_head. Qed.

Lemma strip_last (s chars : str) (c : char) :
  last (strip s chars) = Some c → in_chars chars c = false.
Proof. apply rstrip_last. Qed.

(** Replacing one character: it is gone from the result when the
    replacement does not hold it, and what holds of the text and of the
    replacement holds of the result. *)
Lemma replace_char_Forall (P : char → Prop) (s new : str) (o : char) :
  Forall P s → Forall P new → Forall P (replace s [o] new).
Proof.
  intros Hs Hnew. induction Hs as [|c s Hc Hs IH]; [done|].
  destruct (decide (c = o)) as [->|Hne].
  - change (o :: s) with ([o] ++ s).
    rewrite (replace_match o [] new s). by apply Forall_app.
  - rewrite replace_skip by by apply startswith_head_ne.
    by constructor.
Qed.

Lemma replace_char_gone (s new : str) (o : char) :
  o ∉ new → o ∉ replace s [o] new.
Proof.
  intros Hnew. induction s as [|c s IH]; [by apply not_elem_of_nil|].
  destruct (decide (c = o)) as [->|Hne].
  - change (o :: s) with ([o] ++ s).
    rewrite (replace_match o [] new s). rewrite elem_of_app. tauto.
  - rewrite replace_skip by by apply startswith_head_ne.
    rewrite elem_of_cons. intros [?|?]; [congruence|by apply IH].
Qed.


(** The pipeline of the specification is the code of [get_filename]. *)
Lemma run_steps_filename (S : Services) (title : str) :
  run_steps (filename_steps S) title
  = unidecode S
      (strip (clean_string S
                (replace (titlecase S (clean_string S title))
                   (lit " ") (lit "_")))
         (lit "_") ++ lit ".pdf").
Proof. reflexivity. Qed.




(** ** The small instance keeps the contracts *)

(** Turns comparisons of code points into arithmetic. *)
Ltac code_points :=
  unfold is_ascii, isspace, sample_allowed, SPACE, UNDERSCORE in *;
  rewrite ?Is_true_true in *;
  rewrite ?orb_true_iff, ?andb_true_iff, ?orb_false_iff, ?andb_false_iff,
    ?N.leb_le, ?N.leb_gt, ?N.eqb_eq, ?N.eqb_neq, ?N.ltb_lt, ?N.ltb_ge in *;
  lia.

Lemma sample_allowed_ascii (c : char) : sample_allowed c = true → is_ascii c.
Proof. intros H. code_points. Qed.

Lemma sample_allowed_not_space (c : char) :
  sample_allowed c = true → c ≠ SPACE → isspace c = false.
Proof. intros H Hc. code_points. Qed.

Lemma sample_unidecode_ascii (s : str) :
  Forall is_ascii s → sample_unidecode s = s.
Proof.
  induction 1 as [|c s Hc Hs IH]; [done|].
  unfold sample_unidecode in *. simpl.
  apply Is_true_true in Hc as ->. by f_equal.
Qed.

Lemma sample_clean_string_ascii (s : str) :
  Forall is_ascii (sample_clean_string s).
Proof.
  unfold sample_clean_string, sample_unidecode.
  induction s as [|c s IH]; simpl; [done|].
  destruct (is_ascii c); [|done]. simpl. constructor; [|done].
  destruct (sample_allowed c) eqn:Hc; [by apply sample_allowed_ascii|done].
Qed.

Lemma sample_clean_string_whitespace (s : str) :
  Forall is_ascii s → SPACE ∉ s →
  Forall (λ c, isspace c = false) (sample_clean_string s).
Proof.
  intros Hs Hspace.
  unfold sample_clean_string. rewrite sample_unidecode_ascii by done.
  clear Hs. induction s as [|c s IH]; simpl; [done|].
  apply not_elem_of_cons in Hspace as [Hc Hspace].
  constructor; [|by apply IH].
  destruct (sample_allowed c) eqn:Hallowed; [|done].
  apply sample_allowed_not_space; [done|congruence].
Qed.

Lemma sample_capitalize_ascii (start : bool) (s : str) :
  Forall is_ascii s → Forall is_ascii (sample_capitalize start s).
Proof.
  intros Hs. revert start.
  induction Hs as [|c s Hc Hs IH]; intros start; simpl; [done|].
  constructor; [|by apply IH].
  destruct (start && (97 <=? c)%N && (c <=? 122)%N) eqn:Hlower; [|done].
  code_points.
Qed.

Lemma sample_naming_contract (title body : str) (rendering : result (list N)) :
  NamingContract (sample title body rendering).
Proof.
  split; simpl.
  - apply sample_unidecode_ascii.
  - apply sample_clean_string_ascii.
  - apply sample_clean_string_whitespace.
  - intros s. apply sample_capitalize_ascii.
Qed.



(** The order matters: were the suffix appended before the underscores
    are stripped, an underscore at the end of the title would stay. *)
Example suffix_before_strip_keeps_underscore :
  let S := sample [] [] (Ok []) in
  run_steps (filename_steps S) (lit "hello world_") = lit "Hello_World.pdf"
  ∧ run_steps
      [ clean_string S;
        titlecase S;
        (λ t, replace t (lit " ") (lit "_"));
        clean_string S;
        (λ t, t ++ lit ".pdf");
        (λ t, strip t (lit "_"));
        unidecode S ]
      (lit "hello world_")
    = lit "Hello_World_.pdf".
Proof. by vm_compute. Qed.

(** C5. Whatever title the extraction gives, [get_filename] returns a
    name; and when the title is empty and the collaborators leave an empty
    title empty, the name is [.pdf]. *)
Theorem get_filename_total (S : Services) (abs_url : str) (w : world)
    (request_text title : str) :
  get_page_with_retry S (trace w) abs_url = Ok request_text →
  doc_title S request_text = Ok title →
  ∃ name,
    (get_filename S abs_url w).1 = Ok name
    ∧ (EmptyTitleContract S → title = [] → name = lit ".pdf").
Proof.
  intros Hpage Htitle. rewrite get_filename_run, Hpage, Htitle. cbv zeta.
  eexists. split; [reflexivity|].
  intros [Hclean Htc Huni] ->. rewrite run_steps_filename.
  rewrite Hclean, Htc.
  change (replace [] (lit " ") (lit "_")) with (@nil char).
  rewrite Hclean. exact Huni.
Qed.

Lemma sample_empty_title_contract (title body : str)
    (rendering : result (list N)) :
  EmptyTitleContract (sample title body rendering).
Proof. by split. Qed.

Lemma get_filename_total_witness :
  ∃ name,
    (get_filename (sample [] (lit "body") (Ok []))
       (lit "https://site.com/a") empty_world).1 = Ok name
    ∧ name = lit ".pdf".
Proof.
  destruct (get_filename_total (sample [] (lit "body") (Ok []))
              (lit "https://site.com/a") empty_world
              ([] ++ [NEWLINE] ++ lit "body") [] eq_refl eq_refl)
    as (name & Hname & Hempty).
  exists name. split; [exact Hname|].
  apply Hempty; [apply sample_empty_title_contract|reflexivity].
Defined.

(** * Further properties *)

(** ** The resource fetcher, again *)

(** X1. Whatever address [my_fetcher] is given, the address it hands to
    the default fetcher starts neither with two slashes nor with
    [file:///]. *)
Theorem my_fetcher_url_absolute (url : str) :
  startswith (my_fetcher_url url) (lit "//") = false
  ∧ startswith (my_fetcher_url url) (lit "file:///") = false.
Proof.
  unfold my_fetcher_url.
  destruct (startswith url (lit "//")) eqn:Hslashes.
  - by split.
  - destruct (startswith url (lit "file:///")) eqn:Hfile; by split.
Qed.

(** X2. Passing an address through [my_fetcher] twice is the same as
    passing it once. *)
Theorem my_fetcher_idempotent (A : Type) (default_url_fetcher : str → A)
    (url : str) :
  my_fetcher (my_fetcher default_url_fetcher) url
  = my_fetcher default_url_fetcher url.
Proof.
  unfold my_fetcher at 1 2. f_equal.
  assert (startswith (my_fetcher_url url) (lit "//") = false
          ∧ startswith (my_fetcher_url url) (lit "file:///") = false)
    as [Hslashes Hfile].
  { unfold my_fetcher_url.
    destruct (startswith url (lit "//")) eqn:Hurl; [by split|].
    destruct (startswith url (lit "file:///")) eqn:Hurl'; by split. }
  unfold my_fetcher_url at 1. by rewrite Hslashes, Hfile.
Qed.

(** ** Relative addresses, again *)

Lemma startswith_app_prefix (s p q : str) :
  startswith s (p ++ q) = true → startswith s p = true.
Proof.
  revert s; induction p as [|c p IH]; intros s; simpl; [done|].
  destruct s as [|d s]; [done|].
  rewrite !andb_true_iff. intros [? ?]. split; [done|by apply IH].
Qed.

Lemma contains_app_prefix (s p q : str) :
  contains s p = false → contains s (p ++ q) = false.
Proof.
  induction s as [|c s IH]; simpl.
  - rewrite !orb_false_r. intros Hp.
    destruct (startswith [] (p ++ q)) eqn:Hpq; [|done].
    apply startswith_app_prefix in Hpq. congruence.
  - rewrite !orb_false_iff. intros [Hp Hs]. split; [|by apply IH].
    destruct (startswith (c :: s) (p ++ q)) eqn:Hpq; [|done].
    apply startswith_app_prefix in Hpq. congruence.
Qed.

Section ReplaceGone.
Variables (o : char) (old' new' : str).
Hypothesis Hold : Forall (λ c, c ≠ o) old'.
Hypothesis Hnew : Forall (λ c, c ≠ o) new'.
Hypothesis Hfresh : ∀ x, startswith ((o :: new') ++ x) (o :: old') = false.

(** Text in which [old] does not stand is left as it is. *)
Lemma replace_absent (new s : str) :
  contains s (o :: old') = false → replace s (o :: old') new = s.
Proof using Type.
  induction s as [|c s IH]; [done|].
  cbn [contains]. rewrite orb_false_iff. intros [Hhere Hlater].
  rewrite replace_skip by done. f_equal. by apply IH.
Qed.

Lemma contains_skip_run (u s : str) :
  Forall (λ c, c ≠ o) u →
  contains (u ++ s) (o :: old') = contains s (o :: old').
Proof using Type.
  induction 1 as [|c u Hc _ IH]; [done|].
  rewrite <- app_comm_cons. cbn [contains].
  by rewrite startswith_head_ne, IH.
Qed.

(** The replacement does not change how the text begins, as far as text
    without the first character of [old] is concerned. *)
Lemma startswith_replace (q s : str) :
  Forall (λ c, c ≠ o) q →
  startswith (replace s (o :: old') (o :: new')) q = startswith s q.
Proof using Type.
  intros Hq. revert s. induction Hq as [|x q Hx _ IH]; intros s; [done|].
  destruct s as [|c s]; [done|].
  destruct (startswith (c :: s) (o :: old')) eqn:Hhere.
  - apply startswith_true in Hhere. rewrite Hhere, replace_match.
    rewrite <- !app_comm_cons.
    rewrite !startswith_head_ne by congruence. done.
  - rewrite replace_skip by done. cbn [startswith]. by rewrite IH.
Qed.

(** After the replacement [old] stands nowhere, when what is put in
    neither begins a new occurrence nor holds the first character of
    [old] further on. *)
Lemma replace_gone (s : str) :
  contains (replace s (o :: old') (o :: new')) (o :: old') = false.
Proof using Hold Hnew Hfresh.
  induction s as [s IH] using (induction_ltof1 _ (@length char)).
  unfold ltof in IH. destruct s as [|c s]; [done|].
  destruct (startswith (c :: s) (o :: old')) eqn:Hhere.
  - apply startswith_true in Hhere.
    set (rest := drop (length (o :: old')) (c :: s)) in *.
    rewrite Hhere, replace_match. rewrite <- app_comm_cons.
    cbn [contains]. rewrite app_comm_cons, Hfresh, contains_skip_run by done.
    apply IH. rewrite Hhere, length_app. simpl. lia.
  - rewrite replace_skip by done. cbn [contains].
    rewrite (IH s) by (simpl; lia). rewrite orb_false_r.
    destruct (decide (c = o)) as [->|Hne]; [|by apply startswith_head_ne].
    cbn [startswith] in Hhere |- *. rewrite N.eqb_refl in Hhere |- *.
    cbn [andb] in Hhere |- *. by rewrite startswith_replace.
Qed.
End ReplaceGone.

(** An article without the root-relative opening is not changed. *)
Lemma rewritten_unchanged (base_url html_article : str) :
  contains html_article SRC_ROOT_RELATIVE = false →
  rewritten base_url html_article = html_article.
Proof.
  intros Hnone. unfold rewritten.
  rewrite (replace_absent SPACE (lit "src=" ++ [DQUOTE] ++ lit "//")).
  - by apply (replace_absent SPACE (lit "src=" ++ [DQUOTE] ++ lit "/")).
  - by apply (contains_app_prefix _ SRC_ROOT_RELATIVE [SLASH]).
Qed.

(** After the rewriting the root-relative opening stands nowhere. *)
Lemma rewritten_none (base_url html_article : str) :
  base_url ≠ [] → head base_url ≠ Some SLASH → SPACE ∉ base_url →
  contains (rewritten base_url html_article) SRC_ROOT_RELATIVE = false.
Proof.
  intros Hempty Hhead Hspace. unfold rewritten.
  apply (replace_gone SPACE (lit "src=" ++ [DQUOTE] ++ lit "/")
           (lit "src=" ++ [DQUOTE] ++ base_url ++ lit "/")).
  - no_space.
  - apply Forall_app. split; [no_space|].
    apply Forall_cons. split; [discriminate|].
    apply Forall_app. split; [|no_space].
    apply Forall_forall. intros c Hc ->. by apply Hspace.
  - intros x. destruct base_url as [|c rest]; [done|].
    assert (c ≠ SLASH) as Hc by (intros ->; by apply Hhead).
    apply N.eqb_neq in Hc.
    change (((c =? SLASH)%N && true) = false). by rewrite Hc.
Qed.

Lemma site_no_space : SPACE ∉ lit "https://site.com".
Proof. apply (bool_decide_unpack _). by vm_compute. Qed.

(** X3. When the base address is not empty, does not begin with a slash
    and holds no space, the rewritten article holds neither the
    root-relative nor the protocol-relative opening any more. *)
Theorem fix_relative_urls_leaves_none (base_url html_article out : str) :
  base_url ≠ [] → head base_url ≠ Some SLASH → SPACE ∉ base_url →
  fix_relative_urls base_url html_article = Some out →
  contains out SRC_ROOT_RELATIVE = false
  ∧ contains out SRC_PROTOCOL_RELATIVE = false.
Proof.
  intros Hempty Hhead Hspace. rewrite fix_relative_urls_rewritten.
  intros [= <-].
  pose proof (rewritten_none base_url html_article Hempty Hhead Hspace) as Hnone.
  split; [done|].
  by apply (contains_app_prefix _ SRC_ROOT_RELATIVE [SLASH]).
Qed.

Lemma fix_relative_urls_leaves_none_witness :
  contains (rewritten (lit "https://site.com")
              (lit "<img" ++ SRC_ROOT_RELATIVE ++ lit "a.png"))
    SRC_ROOT_RELATIVE = false
  ∧ contains (rewritten (lit "https://site.com")
                (lit "<img" ++ SRC_ROOT_RELATIVE ++ lit "a.png"))
      SRC_PROTOCOL_RELATIVE = false.
Proof.
  apply (fix_relative_urls_leaves_none (lit "https://site.com")
           (lit "<img" ++ SRC_ROOT_RELATIVE ++ lit "a.png")).
  - discriminate.
  - discriminate.
  - apply site_no_space.
  - apply fix_relative_urls_rewritten.
Defined.

(** X4. Under the same conditions on the base address, rewriting the
    rewritten article again changes nothing. *)
Theorem fix_relative_urls_idempotent (base_url html_article out : str) :
  base_url ≠ [] → head base_url ≠ Some SLASH → SPACE ∉ base_url →
  fix_relative_urls base_url html_article = Some out →
  fix_relative_urls base_url out = Some out.
Proof.
  intros Hempty Hhead Hspace. rewrite !fix_relative_urls_rewritten.
  intros [= <-]. f_equal.
  by apply rewritten_unchanged, rewritten_none.
Qed.

Lemma fix_relative_urls_idempotent_witness :
  fix_relative_urls (lit "https://site.com")
    (rewritten (lit "https://site.com")
       (lit "<img" ++ SRC_PROTOCOL_RELATIVE ++ lit "cdn.org/a.png"))
  = Some (rewritten (lit "https://site.com")
            (lit "<img" ++ SRC_PROTOCOL_RELATIVE ++ lit "cdn.org/a.png")).
Proof.
  apply (fix_relative_urls_idempotent (lit "https://site.com")
           (lit "<img" ++ SRC_PROTOCOL_RELATIVE ++ lit "cdn.org/a.png")).
  - discriminate.
  - discriminate.
  - apply site_no_space.
  - apply fix_relative_urls_rewritten.
Defined.

(** X5. An article in which the root-relative opening stands nowhere
    comes out of the rewriting as it went in, whatever the base address. *)
Theorem fix_relative_urls_unchanged (base_url html_article : str) :
  contains html_article SRC_ROOT_RELATIVE = false →
  fix_relative_urls base_url html_article = Some html_article.
Proof.
  intros Hnone. rewrite fix_relative_urls_rewritten.
  by rewrite rewritten_unchanged.
Qed.

Lemma fix_relative_urls_unchanged_witness :
  fix_relative_urls (lit "https://site.com")
    (lit "<img" ++ SRC_HTTPS ++ lit "a.org/b.png")
  = Some (lit "<img" ++ SRC_HTTPS ++ lit "a.org/b.png").
Proof.
  apply fix_relative_urls_unchanged. by vm_compute.
Defined.

(** ** Runs, again *)

(** One of the ways a stage fails, from the results at hand. *)
Ltac failed_stage :=
  first [ eapply fetch_fails; eassumption
        | eapply title_fails; eassumption
        | eapply summary_fails; eassumption
        | eapply to_text_fails; eassumption
        | eapply urlsplit_fails; eassumption
        | eapply to_html_fails; eassumption
        | eapply debug_write_fails; [reflexivity|prepared|eassumption]
        | eapply rendering_fails;
            [prepared|first [done|intros _; eassumption]|eassumption]
        | eapply pdf_write_fails;
            [prepared|first [done|intros _; eassumption]|eassumption
            |eassumption] ].

(** X6. [retrieve_pdf] raises an exception exactly when one of its stages
    fails with it: the fetch, the extraction of the title or of the
    summary, the conversion to text, the splitting of the address, the
    conversion back to HTML, the debug write when the flag is set, the
    rendering, or the write of the document. The two uses of [format] and
    the replacements never fail, whatever the title, the text and the
    address hold. *)
Theorem retrieve_pdf_raises_iff (S : Services) (debug : bool)
    (pdf_url filename : str) (w : world) (e : exn) :
  (retrieve_pdf S debug pdf_url filename w).1 = Raise e
  ↔ ∃ st, stage_fails S debug pdf_url filename w st e.
Proof.
  split.
  - rewrite retrieve_pdf_run. cbv zeta.
    stage_cases; cbn [fst]; intros Hraise; try discriminate Hraise;
      injection Hraise as <-; eexists; failed_stage.
  - intros [st Hfails].
    destruct Hfails as
      [ e H1 | e ? H1 H2 | e ? ? H1 H2 H3 | e ? ? ? H1 H2 H3 H4
      | e ? ? ? ? H1 H2 H3 H4 H5 | e ? ? ? ? ? H1 H2 H3 H4 H5 H6
      | e article html_article kept -> Hprepares Hdebug
      | e article html_article Hprepares Hdebug Hrender
      | e article html_article pdf kept Hprepares Hdebug Hrender Hpdf ].
    1-6: rewrite retrieve_pdf_run; cbv zeta;
         by rewrite ?H1, ?H2, ?H3, ?H4, ?H5, ?H6.
    all: rewrite (retrieve_pdf_prepared _ _ _ _ _ _ _ Hprepares); cbv zeta.
    + by rewrite Hdebug.
    + destruct debug; [rewrite Hdebug by done|]; by rewrite Hrender.
    + destruct debug; [rewrite Hdebug by done|]; by rewrite Hrender, Hpdf.
Qed.

Lemma retrieve_pdf_raises_iff_witness :
  ∃ st,
    stage_fails
      (with_fs_write (sample (lit "Title") (lit "body") (Ok [37; 80]%N))
         (WriteFailed (Exn "OSError") None))
      true (lit "https://site.com/a") (lit "paper.pdf") empty_world
      st (Exn "OSError").
Proof.
  apply (retrieve_pdf_raises_iff
           (with_fs_write (sample (lit "Title") (lit "body") (Ok [37; 80]%N))
              (WriteFailed (Exn "OSError") None))
           true (lit "https://site.com/a") (lit "paper.pdf") empty_world).
  by vm_compute.
Defined.

(** X7. When [retrieve_pdf] returns, every stage has succeeded, the
    writes among them; what the run added to the trace is one fetch, one
    call of the renderer of text, the debug write when the flag is set,
    and the write of the document, in this order; and the file at the
    output path holds the rendered document, also when the output path is
    the debug file. *)
Theorem retrieve_pdf_success (S : Services) (debug : bool)
    (pdf_url filename : str) (w : world) (u : unit) :
  (retrieve_pdf S debug pdf_url filename w).1 = Ok u →
  ∃ request_text title raw_html text parts html pdf,
    get_page_with_retry S (trace w) pdf_url = Ok request_text
    ∧ doc_title S request_text = Ok title
    ∧ doc_summary S request_text = Ok raw_html
    ∧ h2t_handle S false raw_html = Ok text
    ∧ urlsplit S pdf_url = Ok parts
    ∧ markdown_markdown S
        (lit "# " ++ title ++ [NEWLINE; NEWLINE] ++ text) = Ok html
    ∧ weasyprint_render S (my_fetcher (weasyprint_default_url_fetcher S))
        (rewritten (split_scheme parts ++ lit "://" ++ split_netloc parts)
           html) CSS = Ok pdf
    ∧ trace (retrieve_pdf S debug pdf_url filename w).2
      = trace w
        ++ [GetPage pdf_url;
            Markdown (lit "# " ++ title ++ [NEWLINE; NEWLINE] ++ text)]
        ++ (if debug
            then [WriteFile DEBUG_FILE
                    (Text (rewritten
                             (split_scheme parts ++ lit "://"
                              ++ split_netloc parts) html))]
            else [])
        ++ [WriteFile filename (Pdf pdf)]
    ∧ files (retrieve_pdf S debug pdf_url filename w).2
        !! abspath S filename = Some (Pdf pdf)
    ∧ (debug = true →
       fs_write S
         (trace w
          ++ asked_before_debug pdf_url
               (lit "# " ++ title ++ [NEWLINE; NEWLINE] ++ text))
         DEBUG_FILE
         (Text (rewritten
                  (split_scheme parts ++ lit "://" ++ split_netloc parts)
                  html)) = Written)
    ∧ fs_write S
        (trace w
         ++ asked_before_pdf debug pdf_url
              (lit "# " ++ title ++ [NEWLINE; NEWLINE] ++ text)
              (rewritten
                 (split_scheme parts ++ lit "://" ++ split_netloc parts)
                 html))
        filename (Pdf pdf) = Written.
Proof.
  rewrite retrieve_pdf_run. cbv zeta.
  stage_cases; cbn [fst]; intros Hok; try discriminate Hok.
  all: do 7 eexists;
    (split_and!; [first [reflexivity|eassumption]..| | | |eassumption]).
  all: first [ trace_eq
             | cbn [snd files written]; apply lookup_insert_eq
             | intros _; eassumption
             | done ].
Qed.

Lemma retrieve_pdf_success_witness :
  ∃ pdf,
    files (retrieve_pdf (sample (lit "Title") (lit "body") (Ok [37; 80]%N))
             true (lit "https://site.com/a") DEBUG_FILE empty_world).2
      !! abspath (sample (lit "Title") (lit "body") (Ok [37; 80]%N)) DEBUG_FILE
    = Some (Pdf pdf).
Proof.
  destruct (retrieve_pdf_success
              (sample (lit "Title") (lit "body") (Ok [37; 80]%N))
              true (lit "https://site.com/a") DEBUG_FILE empty_world tt)
    as (_ & _ & _ & _ & _ & _ & pdf & _ & _ & _ & _ & _ & _ & _ & _ & Hfile
        & _ & _).
  - by vm_compute.
  - by exists pdf.
Defined.

(** X8. A run of [retrieve_pdf], failed or not, leaves every file alone
    but the one at the output path and, when the debug flag is set, the
    debug file. *)
Theorem retrieve_pdf_other_files (S : Services) (debug : bool)
    (pdf_url filename : str) (w : world) (file : str) :
  file ≠ abspath S filename →
  debug = false ∨ file ≠ abspath S DEBUG_FILE →
  files (retrieve_pdf S debug pdf_url filename w).2 !! file
  = files w !! file.
Proof.
  intros Hout Hdebug. rewrite retrieve_pdf_run. cbv zeta.
  stage_cases; try done;
    cbn [snd files written logged attempted];
    rewrite ?lookup_insert_ne; try done;
    by destruct Hdebug.
Qed.

Lemma retrieve_pdf_other_files_witness :
  files (retrieve_pdf (sample (lit "Title") (lit "body") (Ok []))
           true (lit "https://site.com/a") (lit "paper.pdf")
           {| files := {[ lit "notes.txt" := Text (lit "kept") ]};
              trace := [] |}).2
    !! lit "notes.txt"
  = files {| files := {[ lit "notes.txt" := Text (lit "kept") ]};
             trace := [] |}
    !! lit "notes.txt".
Proof.
  apply (retrieve_pdf_other_files
           (sample (lit "Title") (lit "body") (Ok []))
           true (lit "https://site.com/a") (lit "paper.pdf")
           {| files := {[ lit "notes.txt" := Text (lit "kept") ]};
              trace := [] |} (lit "notes.txt")).
  - by vm_compute.
  - right. by vm_compute.
Defined.

(** X9. With the debug flag set, once the stages up to the conversion
    back to HTML have succeeded, the debug file holds after the run what
    the debug write left there, whether the rendering then succeeds or
    fails, unless the output path is the debug file itself: the rewritten
    HTML when the write went through, its first characters when the write
    stopped after opening the file, and what it held before when the file
    could not be opened. *)
Theorem retrieve_pdf_debug_content (S : Services) (pdf_url filename : str)
    (w : world) (request_text title raw_html text : str)
    (parts : SplitResult) (html : str) :
  get_page_with_retry S (trace w) pdf_url = Ok request_text →
  doc_title S request_text = Ok title →
  doc_summary S request_text = Ok raw_html →
  h2t_handle S false raw_html = Ok text →
  urlsplit S pdf_url = Ok parts →
  markdown_markdown S
    (lit "# " ++ title ++ [NEWLINE; NEWLINE] ++ text) = Ok html →
  abspath S filename ≠ abspath S DEBUG_FILE →
  files (retrieve_pdf S true pdf_url filename w).2 !! abspath S DEBUG_FILE
  = match fs_write S
            (trace w
             ++ [GetPage pdf_url;
                 Markdown (lit "# " ++ title ++ [NEWLINE; NEWLINE] ++ text)])
            DEBUG_FILE
            (Text (rewritten
                     (split_scheme parts ++ lit "://" ++ split_netloc parts)
                     html)) with
    | Written =>
        Some (Text (rewritten
                      (split_scheme parts ++ lit "://" ++ split_netloc parts)
                      html))
    | WriteFailed _ (Some n) =>
        Some (Text (take n (rewritten
                              (split_scheme parts ++ lit "://"
                               ++ split_netloc parts)
                              html)))
    | WriteFailed _ None => files w !! abspath S DEBUG_FILE
    end.
Proof.
  intros H1 H2 H3 H4 H5 H6 Hpath. rewrite retrieve_pdf_run. cbv zeta.
  rewrite H1, H2, H3, H4, H5, H6. unfold asked_before_debug.
  destruct (fs_write S _ DEBUG_FILE _) as [|e [n|]];
    [|apply lookup_insert_eq|done].
  destruct (weasyprint_render _ _ _ _) as [pdf|e];
    [|apply lookup_insert_eq].
  destruct (fs_write S _ filename _) as [|e [n|]];
    cbn [snd files written logged attempted];
    rewrite ?lookup_insert_ne by done; apply lookup_insert_eq.
Qed.

Lemma retrieve_pdf_debug_content_witness :
  files (retrieve_pdf (sample (lit "Title") (lit "body") (Raise (Exn "RenderError")))
           true (lit "https://site.com/a") (lit "paper.pdf") empty_world).2
    !! abspath (sample (lit "Title") (lit "body") (Raise (Exn "RenderError")))
         DEBUG_FILE
  = Some (Text (rewritten
                  (split_scheme
                     {| split_scheme := lit "https";
                        split_netloc := lit "site.com";
                        split_path := lit "/a"; split_query := [];
                        split_fragment := [] |}
                   ++ lit "://"
                   ++ split_netloc
                        {| split_scheme := lit "https";
                           split_netloc := lit "site.com";
                           split_path := lit "/a"; split_query := [];
                           split_fragment := [] |})
                  (lit "# " ++ lit "Title" ++ [NEWLINE; NEWLINE] ++ lit "body"))).
Proof.
  eapply (retrieve_pdf_debug_content
            (sample (lit "Title") (lit "body") (Raise (Exn "RenderError")))
            (lit "https://site.com/a") (lit "paper.pdf") empty_world);
    try reflexivity.
  by vm_compute.
Defined.

(** ** The other two operations, again *)

(** X10. [get_filename] writes no file. It raises exactly what the fetch
    or the extraction of the title raises, and then nothing is logged;
    when it returns a name, the run added to the trace the fetch and one
    log message, which holds the name returned. *)
Theorem get_filename_effects (S : Services) (abs_url : str) (w : world) :
  files (get_filename S abs_url w).2 = files w
  ∧ (∀ e, (get_filename S abs_url w).1 = Raise e
          ↔ get_page_with_retry S (trace w) abs_url = Raise e
            ∨ ∃ request_text,
                get_page_with_retry S (trace w) abs_url = Ok request_text
                ∧ doc_title S request_text = Raise e)
  ∧ (∀ e, (get_filename S abs_url w).1 = Raise e →
          trace (get_filename S abs_url w).2 = trace w ++ [GetPage abs_url])
  ∧ (∀ name, (get_filename S abs_url w).1 = Ok name →
             trace (get_filename S abs_url w).2
             = trace w ++ [GetPage abs_url;
                           LogInfo (lit "Created filename: " ++ name)]).
Proof.
  rewrite get_filename_run. cbv zeta.
  stage_cases; cbn [fst snd files trace logged]; split_and!; try done.
  - intros e. split; [done|]. intros [?|(? & ? & ?)]; simplify_eq.
    congruence.
  - intros name [= <-]. by rewrite <- (assoc_L (++)).
  - intros e'. split.
    + intros [= <-]. right. eauto.
    + intros [?|(? & ? & ?)]; simplify_eq. congruence.
  - intros e'. split.
    + intros [= <-]. by left.
    + intros [?|(? & ? & ?)]; by simplify_eq.
Qed.

Lemma get_filename_effects_witness :
  trace (get_filename (sample (lit "hello world") [] (Ok []))
           (lit "https://site.com/a") empty_world).2
  = trace empty_world
    ++ [GetPage (lit "https://site.com/a");
        LogInfo (lit "Created filename: " ++ lit "Hello_World.pdf")].
Proof.
  apply (get_filename_effects (sample (lit "hello world") [] (Ok []))
           (lit "https://site.com/a") empty_world).
  by vm_compute.
Defined.

(** X11. [validate] writes no file and fetches no page: it adds nothing
    to the trace, or one request for the content type. It raises exactly
    what [urlparse] raises or, when the address has its three parts, what
    the request for the content type raises; and it returns true only
    after it has asked for the content type. *)
Theorem validate_effects (S : Services) (src : str) (w : world) :
  files (validate S src w).2 = files w
  ∧ (trace (validate S src w).2 = trace w
     ∨ trace (validate S src w).2 = trace w ++ [GetContentType src])
  ∧ (∀ e, (validate S src w).1 = Raise e
          ↔ urlparse S src = Raise e
            ∨ ∃ parsed,
                urlparse S src = Ok parsed
                ∧ scheme parsed ≠ [] ∧ netloc parsed ≠ [] ∧ path parsed ≠ []
                ∧ get_content_type_with_retry S (trace w) src = Raise e)
  ∧ ((validate S src w).1 = Ok true →
     trace (validate S src w).2 = trace w ++ [GetContentType src]).
Proof.
  unfold validate. run.
  destruct (urlparse S src) as [parsed|e]; run.
  - destruct (all [scheme parsed; netloc parsed; path parsed]) eqn:Hall;
      cbn [negb]; run.
    + apply all_three in Hall as (? & ? & ?).
      destruct (get_content_type_with_retry S (trace w) src) as [[ct|]|e];
        split_and!; try done; try (by right);
        intros e'; split; try done;
        try (intros [?|(? & ? & ? & ? & ? & ?)]; by simplify_eq).
      intros [= <-]. right. by exists parsed.
    + split_and!; [done|by left| |done].
      intros e. split; [done|].
      intros [?|(parsed' & [= <-] & ? & ? & ? & ?)]; [done|].
      assert (all [scheme parsed; netloc parsed; path parsed] = true)
        by by apply all_three.
      congruence.
  - split_and!; [done|by left| |done].
    intros e'. split.
    + intros [= <-]. by left.
    + intros [[= <-]|(? & ? & _)]; [reflexivity|discriminate].
Qed.

Lemma validate_effects_witness :
  (validate (with_content_type (sample [] [] (Ok []))
               (Raise (Exn "ConnectionError")))
     (lit "https://site.com/a") empty_world).1
  = Raise (Exn "ConnectionError").
Proof.
  apply (validate_effects
           (with_content_type (sample [] [] (Ok []))
              (Raise (Exn "ConnectionError")))
           (lit "https://site.com/a") empty_world).
  right.
  exists {| scheme := lit "https"; netloc := lit "site.com"; path := lit "/a";
            params := []; query := []; fragment := [] |}.
  by split_and!.
Defined.

(** ** The stem of the file name *)

(** X12. Under the contract of the collaborators, the name [get_filename]
    returns is a stem followed by [.pdf], where the stem itself neither
    begins nor ends with an underscore, and the name holds no whitespace
    character at all. *)
Theorem get_filename_stem (S : Services) (abs_url : str) (w : world)
    (name : str) :
  NamingContract S →
  (get_filename S abs_url w).1 = Ok name →
  ∃ stem,
    name = stem ++ lit ".pdf"
    ∧ head stem ≠ Some UNDERSCORE
    ∧ last stem ≠ Some UNDERSCORE
    ∧ Forall (λ c, isspace c = false) name.
Proof.
  intros [Huni Hclean Hspace Htitle]. rewrite get_filename_run. cbv zeta.
  destruct (get_page_with_retry S (trace w) abs_url) as [request_text|e];
    [|done].
  destruct (doc_title S request_text) as [title|e]; [|done].
  intros Hname. cbn [fst] in Hname.
  assert (name = run_steps (filename_steps S) title) as -> by congruence.
  clear Hname. rewrite run_steps_filename.
  set (t3 := replace (titlecase S (clean_string S title)) (lit " ") (lit "_")).
  assert (Forall is_ascii t3) as Hascii3.
  { apply (replace_char_Forall _ _ _ SPACE); [by apply Htitle|].
    by repeat constructor. }
  assert (SPACE ∉ t3) as Hspace3.
  { apply (replace_char_gone _ _ SPACE).
    intros Hin. apply list_elem_of_singleton in Hin. discriminate Hin. }
  exists (strip (clean_string S t3) (lit "_")).
  rewrite Huni.
  - split_and!; [done| | |].
    + intros Hhead. by apply strip_head in Hhead.
    + intros Hlast. by apply strip_last in Hlast.
    + apply Forall_app. split; [by apply strip_Forall, Hspace|].
      by repeat constructor.
  - apply Forall_app. split; [by apply strip_Forall|].
    by repeat constructor.
Qed.

Lemma get_filename_stem_witness :
  NamingContract (sample (lit "_hello world_") [] (Ok []))
  ∧ ∃ stem,
      lit "hello_World.pdf" = stem ++ lit ".pdf"
      ∧ head stem ≠ Some UNDERSCORE
      ∧ last stem ≠ Some UNDERSCORE
      ∧ Forall (λ c, isspace c = false) (lit "hello_World.pdf").
Proof.
  split; [apply sample_naming_contract|].
  apply (get_filename_stem (sample (lit "_hello world_") [] (Ok []))
           (lit "https://site.com/a") empty_world (lit "hello_World.pdf")
           (sample_naming_contract _ _ _)).
  by vm_compute.
Defined.
